(** * IAbot_Telegram: the response-selection and feedback-learning engine

    A shallow embedding of [iabot.py] (class [IASimples] and the Telegram
    feedback handler) with the properties of its natural-language
    specification.

    Conventions of the embedding.
    - A Python [str] is a [string] holding its UTF-8 encoding.  Equality,
      emptiness, concatenation and the substring test [a in b] of
      well-formed UTF-8 texts coincide with the same operations on code
      points, and splitting at an ASCII separator does too.
    - The text functions that come from libraries ([str.lower],
      [str.strip], [unidecode.unidecode], [re.findall(r'\w+', _)]) are
      the fields of the class [BibliotecaTexto]: every general theorem
      holds for any implementation of them.  [Latin1.biblioteca] is an
      executable instance used for the concrete runs.
    - A Python [dict] is an association list in insertion order (the
      iteration order of [dict.items()]).
    - A score ([pontuacao]) is a Python number: an [int] of any size or a
      finite [float], with the arithmetic of each.  Adding 1 to an [int] is
      exact; every operation on a [float] is rounded to the nearest float,
      and [float(int)] raises [OverflowError] beyond the range of floats.
    - [CONVERSAS_DIR] is the list of its files as [os.listdir] gives it.
      The place at which a new file shows up in the listing and the outcome
      of the write (done, not opened, opened and cut short) are answers of
      the outside world.
    - The object state ([self.conhecimento], [self.respostas],
      [self.estatisticas]), the SQLite table [feedback] and the directory
      [CONVERSAS_DIR] are the fields of the record [IASimples]; each method
      is a function from the state (and what the outside world answers) to
      the new state and the result. *)

From Stdlib Require Import ZArith NArith DecimalString Ascii String.
From stdpp Require Import base decidable option numbers list gmap strings.

Open Scope string_scope.
Open Scope list_scope.

(** ** Python strings *)

Module Texto.

(** [contido a b] is Python's [a in b] for strings. *)
Fixpoint contido (a b : string) : bool :=
  String.prefix a b ||
  match b with
  | EmptyString => false
  | String _ b' => contido a b'
  end.

(** [s.split(sep)] for a one-character separator. *)
Fixpoint split (sep : ascii) (s : string) : list string :=
  match s with
  | EmptyString => [EmptyString]
  | String c s' =>
      if decide (c = sep) then EmptyString :: split sep s'
      else match split sep s' with
           | [] => [String c EmptyString]
           | w :: ws => String c w :: ws
           end
  end.

(** [str(n)] for an integer. *)
Definition str_of_Z (n : Z) : string := NilZero.string_of_int (Z.to_int n).

(** Truthiness of an optional string: [None] and [""] are falsy. *)
Definition verdadeiro (r : option string) : bool :=
  match r with
  | None => false
  | Some s => negb (String.eqb s "")
  end.

(** The library functions used on text. *)
Class BibliotecaTexto := {
  str_lower : string -> string;          (* str.lower() *)
  str_strip : string -> string;          (* str.strip() *)
  unidecode : string -> string;          (* unidecode.unidecode(s) *)
  findall_w : string -> list string      (* re.findall(r'\w+', s) *)
}.

End Texto.

Export Texto.

(** ** An executable text library for ASCII and the Latin-1 letters

    The functions below decode UTF-8, work on code points and encode
    again.  They agree with Python on texts whose characters are ASCII or
    the Latin-1 letters U+00C0..U+00FF; other code points are passed
    through unchanged and count as non-word characters. *)

Module Latin1.

Fixpoint decodificar (s : string) (acc : N) (k : nat) : list N :=
  match s with
  | EmptyString => []
  | String c s' =>
      let b := N_of_ascii c in
      match k with
      | S k' =>
          let acc' := (acc * 64 + N.land b 63)%N in
          match k' with
          | O => acc' :: decodificar s' 0%N 0
          | S _ => decodificar s' acc' k'
          end
      | O =>
          if (b <? 128)%N then b :: decodificar s' 0%N 0
          else if (b <? 224)%N then decodificar s' (N.land b 31) 1
          else if (b <? 240)%N then decodificar s' (N.land b 15) 2
          else decodificar s' (N.land b 7) 3
      end
  end.

Definition byte (n : N) : string := String (ascii_of_N n) EmptyString.

Definition codificar_ponto (cp : N) : string :=
  if (cp <? 128)%N then byte cp
  else if (cp <? 2048)%N then
    byte (192 + cp / 64) +:+ byte (128 + cp mod 64)
  else if (cp <? 65536)%N then
    byte (224 + cp / 4096) +:+ byte (128 + (cp / 64) mod 64)
    +:+ byte (128 + cp mod 64)
  else
    byte (240 + cp / 262144) +:+ byte (128 + (cp / 4096) mod 64)
    +:+ byte (128 + (cp / 64) mod 64) +:+ byte (128 + cp mod 64).

Definition codificar (l : list N) : string :=
  foldr (fun cp s => codificar_ponto cp +:+ s) EmptyString l.

Definition entre (a b cp : N) : bool := ((a <=? cp) && (cp <=? b))%N.

(** Upper-case letters: A..Z and U+00C0..U+00DE without the sign U+00D7. *)
Definition minuscula (cp : N) : N :=
  if entre 65 90 cp then (cp + 32)%N
  else if entre 192 222 cp && negb (cp =? 215)%N then (cp + 32)%N
  else cp.

(** [str.isspace] on ASCII. *)
Definition espaco (cp : N) : bool := entre 9 13 cp || entre 28 32 cp.

(** [\w]: letters, digits and the underscore. *)
Definition palavra (cp : N) : bool :=
  entre 48 57 cp || entre 65 90 cp || entre 97 122 cp || (cp =? 95)%N
  || (entre 192 255 cp && negb (cp =? 215)%N && negb (cp =? 247)%N).

(** The table of [unidecode] for U+00C0..U+00FF. *)
Definition transliterar (cp : N) : string :=
  if (cp <? 128)%N then byte cp
  else if entre 192 197 cp then "A" else if (cp =? 198)%N then "AE"
  else if (cp =? 199)%N then "C" else if entre 200 203 cp then "E"
  else if entre 204 207 cp then "I" else if (cp =? 208)%N then "D"
  else if (cp =? 209)%N then "N" else if entre 210 214 cp then "O"
  else if (cp =? 215)%N then "x" else if (cp =? 216)%N then "O"
  else if entre 217 220 cp then "U" else if (cp =? 221)%N then "Y"
  else if (cp =? 222)%N then "Th" else if (cp =? 223)%N then "ss"
  else if entre 224 229 cp then "a" else if (cp =? 230)%N then "ae"
  else if (cp =? 231)%N then "c" else if entre 232 235 cp then "e"
  else if entre 236 239 cp then "i" else if (cp =? 240)%N then "d"
  else if (cp =? 241)%N then "n" else if entre 242 246 cp then "o"
  else if (cp =? 247)%N then "/" else if (cp =? 248)%N then "o"
  else if entre 249 252 cp then "u" else if (cp =? 253)%N then "y"
  else if (cp =? 254)%N then "th" else if (cp =? 255)%N then "y"
  else codificar_ponto cp.

Fixpoint tirar_espacos (l : list N) : list N :=
  match l with
  | [] => []
  | cp :: l' => if espaco cp then tirar_espacos l' else l
  end.

(** The maximal runs of word characters, in order. *)
Fixpoint palavras_de (l : list N) (atual : list N) : list (list N) :=
  match l with
  | [] => match atual with [] => [] | _ => [reverse atual] end
  | cp :: l' =>
      if palavra cp then palavras_de l' (cp :: atual)
      else match atual with
           | [] => palavras_de l' []
           | _ => reverse atual :: palavras_de l' []
           end
  end.

Definition lower (s : string) : string :=
  codificar (minuscula <$> decodificar s 0%N 0).

Definition strip (s : string) : string :=
  codificar (reverse (tirar_espacos (reverse (tirar_espacos (decodificar s 0%N 0))))).

Definition unidecode (s : string) : string :=
  foldr (fun cp r => transliterar cp +:+ r) EmptyString (decodificar s 0%N 0).

Definition findall_w (s : string) : list string :=
  codificar <$> palavras_de (decodificar s 0%N 0) [].

Definition biblioteca : BibliotecaTexto :=
  {| Texto.str_lower := lower; Texto.str_strip := strip;
     Texto.unidecode := unidecode; Texto.findall_w := findall_w |}.

End Latin1.

(** ** Python numbers

    A score is a Python number: what [json.load] gives for a JSON number,
    and what [+= 1] and [-= 0.5] make of it.  It is an [int], of any size,
    or a [float].  Every finite [float] is a whole number of units of
    2^-1074 with at most 53 significant bits; [Flutuante n] is the float
    of [n] units.  The infinities and NaN, which [json.load] accepts as
    well, are left out: the program never produces them. *)
Inductive numero :=
  | Inteiro (z : Z)
  | Flutuante (n : Z).

(** 1.0 and 0.5 in units of 2^-1074. *)
Definition unidade : Z := 2 ^ 1074.

Definition meia : Z := 2 ^ 1073.

(** The value of a number in units of 2^-1074.  Python compares an [int]
    with a [float] by their exact values. *)
Definition unidades (x : numero) : Z :=
  match x with
  | Inteiro z => (z * unidade)%Z
  | Flutuante n => n
  end.

(** [a / b] rounded to the nearest integer, to the even one of the two
    when it is half-way between them. *)
Definition meio_par (a b : Z) : Z :=
  let q := (a / b)%Z in
  let r := (a mod b)%Z in
  if (2 * r <? b)%Z then q
  else if (b <? 2 * r)%Z then (q + 1)%Z
  else if Z.even q then q else (q + 1)%Z.

(** The number of bits that [n] has beyond the 53 of the significand. *)
Definition sobra (n : Z) : Z := Z.max 0 (Z.log2 (Z.abs n) + 1 - 53).

(** The float nearest to [n] units, ties to even: the rounding of every
    operation on floats and of [float(int)]. *)
Definition arredondar (n : Z) : Z :=
  (2 ^ sobra n * meio_par n (2 ^ sobra n))%Z.

(** [float(z)]; [None] stands for [OverflowError]. *)
Definition float_de_int (z : Z) : option Z :=
  let n := arredondar (z * unidade) in
  if (Z.abs n <? 2 ^ 2098)%Z then Some n else None.

(** [x + 1].  The sum of a float and 1 is rounded; it is finite when the
    float is. *)
Definition mais_um (x : numero) : numero :=
  match x with
  | Inteiro z => Inteiro (z + 1)
  | Flutuante n => Flutuante (arredondar (n + unidade))
  end.

(** [x - 0.5]: an [int] is converted with [float(x)] first; [None] stands
    for the [OverflowError] of the conversion. *)
Definition menos_meio (x : numero) : option numero :=
  match x with
  | Inteiro z => (fun n => Flutuante (arredondar (n - meia))) <$> float_de_int z
  | Flutuante n => Some (Flutuante (arredondar (n - meia)))
  end.

(** ** Data model *)

(** A value of [self.conhecimento]: [{"resposta": ..., "data_adicao": ...}]. *)
Record info := { resposta : string; data_adicao : string }.

(** An element of a list of [self.respostas]:
    [{"texto": ..., "pontuacao": ...}]. *)
Record item := { texto : string; pontuacao : numero }.

(** [self.estatisticas]. *)
Record estat := {
  interacoes : Z;
  feedback_positivo : Z;
  feedback_negativo : Z;
  ultima_atualizacao : string
}.

(** The JSON object of a conversation file.  The learner reads it with
    [conversa.get(chave, "")], so a key may be absent. *)
Record conversa := {
  c_user_id : Z;
  c_timestamp : string;
  c_pergunta : option string;
  c_resposta : option string
}.

(** What [open] and [json.load] give for a file of [CONVERSAS_DIR]: the
    conversation, or a file on which the [try] block of the learner raises
    before it touches the store (unreadable, not JSON, not an object, a
    question that is not a string). *)
Inductive conteudo :=
  | Ilegivel
  | Json (c : conversa).

(** A row of the SQLite table [feedback]. *)
Record linha_feedback := {
  f_mensagem_id : string;
  f_user_id : Z;
  f_tipo_feedback : string
}.

(** The state of the program. *)
Record IASimples := {
  conhecimento : list (string * info);
  respostas : list (string * list item);
  estatisticas : estat;
  tabela_feedback : list linha_feedback;
  conversas : list (string * conteudo)     (* os.listdir(CONVERSAS_DIR) *)
}.

(** What [requests.get] gives: an exception (time-out, connection, a body
    that is not JSON), or a status code and the field ["extract"] of the
    body when there is one. *)
Inductive resultado_http :=
  | Falha
  | Resposta (status_code : Z) (extract : option string).

(** What the outside world supplies during one call of
    [processar_mensagem]. *)
Record ambiente := {
  agora : string;                       (* now, as "%Y-%m-%d %H:%M:%S" *)
  carimbo : string;                     (* now, as "%Y%m%d%H%M%S" *)
  wikipedia : string -> resultado_http; (* the answer to the GET for a topic *)
  sorteio : nat;                        (* the draw of random.choice *)
  gravou : bool;                        (* the conversation file was written *)
  truncou : bool;                       (* if not: it was opened, and is cut short *)
  posicao : nat                         (* where os.listdir shows a new file *)
}.

Definition com_conhecimento (ia : IASimples) c : IASimples :=
  {| conhecimento := c; respostas := respostas ia;
     estatisticas := estatisticas ia; tabela_feedback := tabela_feedback ia;
     conversas := conversas ia |}.

Definition com_respostas (ia : IASimples) r : IASimples :=
  {| conhecimento := conhecimento ia; respostas := r;
     estatisticas := estatisticas ia; tabela_feedback := tabela_feedback ia;
     conversas := conversas ia |}.

Definition com_estatisticas (ia : IASimples) e : IASimples :=
  {| conhecimento := conhecimento ia; respostas := respostas ia;
     estatisticas := e; tabela_feedback := tabela_feedback ia;
     conversas := conversas ia |}.

Definition com_tabela_feedback (ia : IASimples) t : IASimples :=
  {| conhecimento := conhecimento ia; respostas := respostas ia;
     estatisticas := estatisticas ia; tabela_feedback := t;
     conversas := conversas ia |}.

Definition com_conversas (ia : IASimples) c : IASimples :=
  {| conhecimento := conhecimento ia; respostas := respostas ia;
     estatisticas := estatisticas ia; tabela_feedback := tabela_feedback ia;
     conversas := c |}.

(** ** Dictionaries in insertion order *)

Module Dict.

Section Dict.
Context {V : Type}.

(** [d.get(k)] *)
Fixpoint get (k : string) (d : list (string * V)) : option V :=
  match d with
  | [] => None
  | (k', v) :: d' => if decide (k' = k) then Some v else get k d'
  end.

(** [k in d] *)
Definition tem (k : string) (d : list (string * V)) : bool :=
  match get k d with Some _ => true | None => false end.

(** [d[k] = v]: an existing key keeps its place, a new one goes last. *)
Fixpoint set (k : string) (v : V) (d : list (string * V)) : list (string * V) :=
  match d with
  | [] => [(k, v)]
  | (k', v') :: d' =>
      if decide (k' = k) then (k, v) :: d' else (k', v') :: set k v d'
  end.

End Dict.

End Dict.

(** ** The class [IASimples] *)

Section Metodos.
Context `{BibliotecaTexto}.

(** [set(re.findall(r'\w+', s))] *)
Definition palavras (s : string) : gset string := list_to_set (findall_w s).

(** The number of words that a pattern of the knowledge base shares with
    the normalised message:
    [len(palavras_padrao.intersection(palavras_mensagem))]. *)
Definition correspondencia (padrao texto_normalizado : string) : nat :=
  size (palavras (str_lower padrao) ∩ palavras texto_normalizado).

(** One turn of the loop over [self.conhecimento.items()]; the accumulator
    is [(resposta, max_correspondencia)]. *)
Definition passo_conhecimento (texto_normalizado : string)
    (acc : option string * nat) (e : string * info) : option string * nat :=
  let c := correspondencia e.1 texto_normalizado in
  if bool_decide (0 < c) && bool_decide (acc.2 < c)
  then (Some (resposta e.2), c)
  else acc.

(** The first stage of [processar_mensagem]: the knowledge base. *)
Definition busca_conhecimento (kb : list (string * info))
    (texto_normalizado : string) : option string :=
  (foldl (passo_conhecimento texto_normalizado) (None, 0) kb).1.

(** [max(x :: xs, key=lambda x: x["pontuacao"])]: the running maximum is
    replaced only by a strictly greater key. *)
Definition maior_pontuacao (x : item) (xs : list item) : item :=
  foldl (fun m y => if decide (unidades (pontuacao m) < unidades (pontuacao y))%Z
                    then y else m) x xs.

(** [padrao in texto_normalizado or texto_normalizado in padrao] *)
Definition casa (padrao texto_normalizado : string) : bool :=
  contido padrao texto_normalizado || contido texto_normalizado padrao.

(** The second stage: the loop over [self.respostas.items()], left by
    [break] at the first pattern that matches and has candidates. *)
Fixpoint busca_respostas (rs : list (string * list item))
    (texto_normalizado : string) : option string :=
  match rs with
  | [] => None
  | (padrao, respostas_possiveis) :: rs' =>
      if casa padrao texto_normalizado then
        match respostas_possiveis with
        | [] => busca_respostas rs' texto_normalizado
        | x :: xs => Some (texto (maior_pontuacao x xs))
        end
      else busca_respostas rs' texto_normalizado
  end.

(** The third stage: the summary of the Wikipedia page. *)
Definition buscar_na_wikipedia (web : string -> resultado_http)
    (pergunta : string) : option string :=
  match web pergunta with
  | Falha => None
  | Resposta status_code extract =>
      if bool_decide (status_code = 200%Z) then
        if verdadeiro extract then extract else None
      else None
  end.

Definition respostas_padrao : list string :=
  [ "Ainda estou aprendendo sobre isso.";
    "Não tenho conhecimento suficiente para responder.";
    "Poderia me ensinar mais sobre esse assunto?";
    "Não entendi bem. Pode explicar de outra forma?";
    "Estou processando esse tema ainda, me desculpe." ].

(** [random.choice(self.respostas_padrao)] with the draw [n]. *)
Definition escolha_padrao (n : nat) : string :=
  nth (n mod length respostas_padrao) respostas_padrao "".

(** The value of [resposta] after each [if not resposta:] of
    [processar_mensagem]. *)
Definition apos_conhecimento (ia : IASimples) (tn : string) : option string :=
  busca_conhecimento (conhecimento ia) tn.

Definition apos_respostas (ia : IASimples) (tn : string) : option string :=
  let r := apos_conhecimento ia tn in
  if verdadeiro r then r
  else match busca_respostas (respostas ia) tn with
       | Some a => Some a
       | None => r
       end.

Definition apos_wikipedia (ia : IASimples) (amb : ambiente)
    (texto tn : string) : option string :=
  let r := apos_respostas ia tn in
  if verdadeiro r then r else buscar_na_wikipedia (wikipedia amb) texto.

Definition escolher_resposta (ia : IASimples) (amb : ambiente)
    (texto tn : string) : string :=
  let r := apos_wikipedia ia amb texto tn in
  if verdadeiro r then default "" r else escolha_padrao (sorteio amb).

(** [texto_normalizado = unidecode(texto.lower().strip())] *)
Definition normalizar (texto : string) : string :=
  unidecode (str_strip (str_lower texto)).

(** The directory after [arquivo] has been opened for writing: a file
    that exists stays where the listing has it, a new one shows up where
    the file system puts it. *)
Definition gravar (posicao : nat) (arquivo : string) (c : conteudo)
    (dir : list (string * conteudo)) : list (string * conteudo) :=
  if Dict.tem arquivo dir then Dict.set arquivo c dir
  else take posicao dir ++ (arquivo, c) :: drop posicao dir.

(** [_salvar_json] opens the file with mode ['w'] and then dumps: when it
    fails after the file was opened, the file is left empty or cut short,
    which [json.load] does not read. *)
Definition _registrar_conversa (ia : IASimples) (amb : ambiente)
    (pergunta resposta : string) (user_id : Z) : IASimples :=
  let timestamp := carimbo amb in
  let arquivo := "conversa_" +:+ str_of_Z user_id +:+ "_" +:+ timestamp +:+ ".json" in
  let dados := {| c_user_id := user_id; c_timestamp := timestamp;
                  c_pergunta := Some pergunta; c_resposta := Some resposta |} in
  if gravou amb
  then com_conversas ia (gravar (posicao amb) arquivo (Json dados) (conversas ia))
  else if truncou amb
  then com_conversas ia (gravar (posicao amb) arquivo Ilegivel (conversas ia))
  else ia.

Definition processar_mensagem (ia : IASimples) (amb : ambiente)
    (texto : string) (user_id : Z) : IASimples * string :=
  let texto_normalizado := normalizar texto in
  let e := estatisticas ia in
  let ia1 := com_estatisticas ia
    {| interacoes := interacoes e + 1;
       feedback_positivo := feedback_positivo e;
       feedback_negativo := feedback_negativo e;
       ultima_atualizacao := agora amb |} in
  let resposta := escolher_resposta ia1 amb texto texto_normalizado in
  (_registrar_conversa ia1 amb texto resposta user_id, resposta).

Definition adicionar_conhecimento (ia : IASimples)
    (pergunta resposta agora : string) : IASimples :=
  com_conhecimento ia
    (Dict.set pergunta {| resposta := resposta; data_adicao := agora |}
       (conhecimento ia)).

Definition registrar_feedback (ia : IASimples) (mensagem_id : string)
    (user_id : Z) (tipo_feedback : string) : IASimples :=
  com_tabela_feedback ia
    (tabela_feedback ia ++
     [{| f_mensagem_id := mensagem_id; f_user_id := user_id;
         f_tipo_feedback := tipo_feedback |}]).

(** The outcome of the loop [for item in self.respostas[pergunta]]: no
    item has the text, or the first one that has it got its new score, or
    the change of the score raised. *)
Inductive atualizacao :=
  | Ausente
  | Atualizada (itens : list item)
  | Excecao.

(** [item["pontuacao"] += 1], respectively [item["pontuacao"] -= 0.5];
    [None] stands for the exception of the subtraction. *)
Definition nova_pontuacao (tipo_feedback : string) (p : numero) : option numero :=
  if decide (tipo_feedback = "positivo") then Some (mais_um p) else menos_meio p.

(** The loop [for item in self.respostas[pergunta]] with its [break]. *)
Fixpoint atualizar_existente (resposta tipo_feedback : string)
    (itens : list item) : atualizacao :=
  match itens with
  | [] => Ausente
  | it :: itens' =>
      if decide (texto it = resposta) then
        match nova_pontuacao tipo_feedback (pontuacao it) with
        | Some p => Atualizada ({| texto := texto it; pontuacao := p |} :: itens')
        | None => Excecao
        end
      else match atualizar_existente resposta tipo_feedback itens' with
           | Atualizada l => Atualizada (it :: l)
           | r => r
           end
  end.

Definition novo_item (resposta tipo_feedback : string) : item :=
  {| texto := resposta;
     pontuacao := if decide (tipo_feedback = "positivo")
                  then Inteiro 1 else Flutuante (- meia) |}.

(** The conversation file found by the loop over [os.listdir]. *)
Definition localizar_conversa (mensagem_id : string)
    (dir : list (string * conteudo)) : option (string * conteudo) :=
  find (fun a => contido mensagem_id a.1) dir.

Definition _aprender_com_feedback (ia : IASimples)
    (mensagem_id tipo_feedback : string) : IASimples :=
  match localizar_conversa mensagem_id (conversas ia) with
  | None => ia
  | Some (_, Ilegivel) => ia
  | Some (_, Json conversa) =>
      let pergunta := str_strip (str_lower (default "" (c_pergunta conversa))) in
      let resposta := default "" (c_resposta conversa) in
      let rs := if Dict.tem pergunta (respostas ia) then respostas ia
                else Dict.set pergunta [] (respostas ia) in
      let itens := default [] (Dict.get pergunta rs) in
      match atualizar_existente resposta tipo_feedback itens with
      | Atualizada l => com_respostas ia (Dict.set pergunta l rs)
      | Ausente =>
          com_respostas ia
            (Dict.set pergunta (itens ++ [novo_item resposta tipo_feedback]) rs)
      | Excecao => com_respostas ia rs
      end
  end.

(** The callback handler of the feedback buttons: the new state and the
    acknowledgement appended to the message. *)
Definition processar_feedback (ia : IASimples) (data : string)
    (user_id : Z) : IASimples * option string :=
  match split "_" data with
  | _ :: tipo_feedback :: mensagem_id :: _ =>
      (registrar_feedback ia mensagem_id user_id tipo_feedback,
       Some (if decide (tipo_feedback = "positivo")
             then "Obrigado pelo feedback! Isso me ajuda a melhorar. 😊"
             else "Obrigado pelo feedback. Vou tentar melhorar! 🤔"))
  | _ => (ia, None)
  end.

End Metodos.

(** ** Runs and observations *)

(** The calls that the bot makes on the object, and the learning step. *)
Inductive operacao :=
  | Mensagem (amb : ambiente) (texto : string) (user_id : Z)
  | Ensinar (pergunta resposta agora : string)
  | Feedback (data : string) (user_id : Z)
  | Aprender (mensagem_id tipo_feedback : string).

Definition executar1 `{BibliotecaTexto} (ia : IASimples) (op : operacao) : IASimples :=
  match op with
  | Mensagem amb texto user_id => (processar_mensagem ia amb texto user_id).1
  | Ensinar pergunta resposta agora => adicionar_conhecimento ia pergunta resposta agora
  | Feedback data user_id => (processar_feedback ia data user_id).1
  | Aprender mensagem_id tipo_feedback => _aprender_com_feedback ia mensagem_id tipo_feedback
  end.

Definition executar `{BibliotecaTexto} (ia : IASimples) (ops : list operacao) : IASimples :=
  foldl executar1 ia ops.

(** The candidates stored under a pattern ([[]] when the pattern is not
    a key). *)
Definition itens_de (rs : list (string * list item)) (chave : string) : list item :=
  default [] (Dict.get chave rs).

(** The first item of a list with a given text. *)
Definition achar (txt : string) (itens : list item) : option item :=
  find (fun it => bool_decide (texto it = txt)) itens.

(** The candidate with a given text under a pattern. *)
Definition candidato (rs : list (string * list item)) (chave txt : string) : option item :=
  achar txt (itens_de rs chave).


(** The key under which [_aprender_com_feedback] files a conversation, and
    the text of the candidate. *)
Definition chave_de `{BibliotecaTexto} (c : conversa) : string :=
  str_strip (str_lower (default "" (c_pergunta c))).

Definition texto_de (c : conversa) : string := default "" (c_resposta c).

(** The list that the learning step leaves under the key: changed in
    place, longer by the new candidate, or as it was when the change of
    the score raised. *)
Definition itens_depois (txt tipo : string) (l : list item) : list item :=
  match atualizar_existente txt tipo l with
  | Atualizada l' => l'
  | Ausente => l ++ [novo_item txt tipo]
  | Excecao => l
  end.




(** ** Concrete states for the runs *)

Module Exemplo.

#[local] Existing Instance Latin1.biblioteca.

(** [IASimples()] on a fresh installation: no JSON file exists, so every
    store takes the default given to [_carregar_json]. *)
Definition __init__ : IASimples :=
  {| conhecimento := [];
     respostas := [];
     estatisticas := {| interacoes := 0; feedback_positivo := 0;
                        feedback_negativo := 0; ultima_atualizacao := "" |};
     tabela_feedback := [];
     conversas := [] |}.

(** New Year's Day at noon, Wikipedia out of reach. *)
Definition meio_dia : ambiente :=
  {| agora := "2024-01-01 12:00:00"; carimbo := "20240101120000";
     wikipedia := fun _ => Falha; sorteio := 2; gravou := true;
     truncou := false; posicao := 0 |}.

(** Five minutes later, with another draw; the file system lists the new
    file after the one that is there. *)
Definition mais_tarde : ambiente :=
  {| agora := "2024-01-01 12:05:00"; carimbo := "20240101120500";
     wikipedia := fun _ => Falha; sorteio := 0; gravou := true;
     truncou := false; posicao := 1 |}.

(** The state after user 7 has asked "oi", resp. "Olá": the reply was drawn
    from the default pool and the conversation went to
    [conversa_7_20240101120000.json]. *)
Definition depois_de_oi : IASimples := (processar_mensagem __init__ meio_dia "oi" 7).1.

Definition depois_de_ola : IASimples := (processar_mensagem __init__ meio_dia "Olá" 7).1.

(** The learned store of the specification's example. *)
Definition respostas_oi : list (string * list item) :=
  [("oi", [ {| texto := "ola"; pontuacao := Inteiro 2 |};
            {| texto := "oi tudo bem"; pontuacao := Inteiro 5 |} ])].

(** A learned store whose first matching pattern has no candidate. *)
Definition respostas_com_vazio : list (string * list item) :=
  [("bom dia", [ {| texto := "Bom dia!"; pontuacao := Inteiro 1 |} ]);
   ("oi", []);
   ("tchau", [ {| texto := "Ate logo"; pontuacao := Inteiro 3 |} ]);
   ("o", [ {| texto := "ola"; pontuacao := Inteiro 1 |};
           {| texto := "oi tudo bem"; pontuacao := Inteiro 1 |} ])].

(** A state whose stages all give the empty string for the message "a". *)
Definition tudo_vazio : IASimples :=
  {| conhecimento := [("a", {| resposta := ""; data_adicao := "2024-01-01 11:00:00" |})];
     respostas := [("a", [ {| texto := ""; pontuacao := Inteiro 1 |} ])];
     estatisticas := estatisticas __init__;
     tabela_feedback := [];
     conversas := [] |}.

Definition wikipedia_vazia : ambiente :=
  {| agora := "2024-01-01 12:00:00"; carimbo := "20240101120000";
     wikipedia := fun _ => Resposta 200 (Some ""); sorteio := 2; gravou := true;
     truncou := false; posicao := 0 |}.


(** A state whose knowledge base gives the empty string for the message
    "oi", with the learned store of the example. *)
Definition vazio_e_oi : IASimples :=
  {| conhecimento := [("oi", {| resposta := ""; data_adicao := "2024-01-01 11:00:00" |})];
     respostas := respostas_oi;
     estatisticas := estatisticas __init__;
     tabela_feedback := [];
     conversas := [] |}.

(** Wikipedia has a page for every topic. *)
Definition wikipedia_letra : ambiente :=
  {| agora := "2024-01-01 12:00:00"; carimbo := "20240101120000";
     wikipedia := fun _ => Resposta 200 (Some "A é a primeira letra do alfabeto.");
     sorteio := 2; gravou := true; truncou := false; posicao := 0 |}.

(** Noon with the disk full: the file is opened and the dump fails. *)
Definition disco_cheio : ambiente :=
  {| agora := "2024-01-01 12:00:00"; carimbo := "20240101120000";
     wikipedia := fun _ => Falha; sorteio := 2; gravou := false;
     truncou := true; posicao := 0 |}.

(** A knowledge base with one entry. *)
Definition com_saudacao : IASimples :=
  adicionar_conhecimento __init__ "bom dia" "Bom dia!" "2024-01-01 11:00:00".

End Exemplo.

(** ** The Telegram handlers *)

Module Telegram.

(** [new.join(s)] with [new] also before and after: what
    [s.replace("", new)] gives. *)
Fixpoint intercalar (new s : string) : string :=
  match s with
  | EmptyString => new
  | String c s' => new +:+ String c (intercalar new s')
  end.

(** The scan of [s.replace(old, new)] for a non-empty [old], from left to
    right and without overlap; [saltar] counts the characters of an
    occurrence that are still to be passed over. *)
Fixpoint replace_aux (old new s : string) (saltar : nat) : string :=
  match s with
  | EmptyString => EmptyString
  | String c s' =>
      match saltar with
      | S k => replace_aux old new s' k
      | O =>
          if String.prefix old s
          then new +:+ replace_aux old new s' (String.length old - 1)
          else String c (replace_aux old new s' 0)
      end
  end.

(** [s.replace(old, new)] *)
Definition replace (old new s : string) : string :=
  match old with
  | EmptyString => intercalar new s
  | String _ _ => replace_aux old new s 0
  end.

(** [s.split(sep, 1)] for a one-character separator. *)
Fixpoint split1 (sep : ascii) (s : string) : list string :=
  match s with
  | EmptyString => [EmptyString]
  | String c s' =>
      if decide (c = sep) then [EmptyString; s']
      else match split1 sep s' with
           | [] => [String c EmptyString]
           | a :: r => String c a :: r
           end
  end.

Section Handlers.
Context `{BibliotecaTexto}.

(** The handler of [/ensinar]: the new state and the text of the reply.
    [text] is [update.message.text], [agora] the time of the call. *)
Definition ensinar (ia : IASimples) (text agora : string) : IASimples * string :=
  let mensagem := replace "/ensinar " "" text in
  if negb (contido "|" mensagem) then
    (ia, "Formato incorreto. Use: /ensinar pergunta | resposta")
  else
    let partes := split1 "|" mensagem in
    let pergunta := str_strip (nth 0 partes "") in
    let resposta := str_strip (nth 1 partes "") in
    (adicionar_conhecimento ia pergunta resposta agora,
     "Obrigado! Aprendi que quando me perguntarem sobre '" +:+ pergunta
     +:+ "', devo responder: '" +:+ resposta +:+ "'").

(** The handler of a text message: the new state, the reply, and the
    [callback_data] of the two feedback buttons sent with it. *)
Definition processar_mensagem (ia : IASimples) (amb : ambiente)
    (texto : string) (user_id message_id : Z)
    : IASimples * string * (string * string) :=
  let r := processar_mensagem ia amb texto user_id in
  (r.1, r.2,
   ("feedback_positivo_" +:+ str_of_Z message_id,
    "feedback_negativo_" +:+ str_of_Z message_id)).

End Handlers.

End Telegram.

(** ** Further observations *)

(** The number of occurrences of a character in a string. *)
Fixpoint ocorrencias (c : ascii) (s : string) : nat :=
  match s with
  | EmptyString => 0
  | String c' s' => (if decide (c' = c) then 1 else 0) + ocorrencias c s'
  end.

(** [sep.join(partes)] for a one-character separator. *)
Fixpoint join (sep : ascii) (partes : list string) : string :=
  match partes with
  | [] => EmptyString
  | [p] => p
  | p :: ps => p +:+ String sep (join sep ps)
  end.

(** The keys of a dictionary, in insertion order. *)
Definition chaves {V : Type} (d : list (string * V)) : list string := d.*1.

(** The name of the file that [_registrar_conversa] writes. *)
Definition arquivo_de (user_id : Z) (timestamp : string) : string :=
  "conversa_" +:+ str_of_Z user_id +:+ "_" +:+ timestamp +:+ ".json".

(** The calls that neither teach nor learn. *)
Definition conversa_ou_botao (op : operacao) : bool :=
  match op with
  | Mensagem _ _ _ | Feedback _ _ => true
  | Ensinar _ _ _ | Aprender _ _ => false
  end.

(** The number of messages among the calls of a run. *)
Fixpoint mensagens (ops : list operacao) : nat :=
  match ops with
  | [] => 0
  | Mensagem _ _ _ :: ops' => S (mensagens ops')
  | _ :: ops' => mensagens ops'
  end.

(** The first of the results of the stages that is neither [None] nor
    [""]. *)
Fixpoint primeira_verdadeira (rs : list (option string)) : option string :=
  match rs with
  | [] => None
  | r :: rs' => if verdadeiro r then r else primeira_verdadeira rs'
  end.

(** * Properties *)

(** ** Python numbers: rounding *)

Section Numeros.
Local Open Scope Z_scope.


























End Numeros.

(** The float 2^53 is its own sum with 1, and the float after it is its
    sum with 3; the greatest float is its own sum with 1; [float(z)]
    raises from 2^1024 - 2^970 on. *)
Example arredondar_exemplos :
  arredondar (2 ^ 53 * unidade + unidade) = (2 ^ 53 * unidade)%Z
  /\ arredondar (2 ^ 53 * unidade + 3 * unidade) = ((2 ^ 53 + 4) * unidade)%Z
  /\ arredondar ((2 ^ 53 - 1) * 2 ^ 2045 + unidade) = ((2 ^ 53 - 1) * 2 ^ 2045)%Z
  /\ float_de_int (2 ^ 1024 - 2 ^ 970 - 1) = Some ((2 ^ 53 - 1) * 2 ^ 2045)%Z
  /\ float_de_int (2 ^ 1024 - 2 ^ 970) = None
  /\ menos_meio (Inteiro (2 ^ 53)) = Some (Flutuante (2 ^ 53 * unidade))
  /\ menos_meio (Inteiro (10 ^ 400)) = None.
Proof. vm_compute. by repeat split. Qed.

(** ** The text library on the Latin-1 letters *)

Example lower_exemplo : Latin1.lower "Olá, QUAL É?" = "olá, qual é?".
Proof. reflexivity. Qed.

Example unidecode_exemplo :
  Latin1.unidecode "olá, qual é? ção" = "ola, qual e? cao".
Proof. reflexivity. Qed.

Example findall_w_exemplo :
  Latin1.findall_w "o que é python_3? não-sei"
  = ["o"; "que"; "é"; "python_3"; "não"; "sei"].
Proof. reflexivity. Qed.

Example strip_exemplo : Latin1.strip "  oi  tudo " = "oi  tudo".
Proof. reflexivity. Qed.

Example split_exemplo :
  split "_" "feedback_positivo_42" = ["feedback"; "positivo"; "42"].
Proof. reflexivity. Qed.

Example contido_exemplo :
  contido "oi" "ola oi!" = true /\ contido "" "" = true
  /\ contido "oi" "o i" = false.
Proof. repeat split; reflexivity. Qed.

(** ** Dictionaries *)

Section DictLemas.
Context {V : Type}.
Implicit Types (d : list (string * V)) (k : string) (v : V).

Lemma dict_get_set_eq k v d : Dict.get k (Dict.set k v d) = Some v.
Proof.
  induction d as [|[k' v'] d IH]; simpl.
  - by rewrite decide_True.
  - destruct (decide (k' = k)) as [->|Hne]; simpl.
    + by rewrite decide_True.
    + by rewrite decide_False.
Qed.

Lemma dict_get_set_ne k k' v d :
  k <> k' -> Dict.get k' (Dict.set k v d) = Dict.get k' d.
Proof.
  intros Hne. induction d as [|[k0 v0] d IH]; simpl.
  - by rewrite decide_False.
  - destruct (decide (k0 = k)) as [->|Hne0]; simpl.
    + by rewrite !decide_False.
    + destruct (decide (k0 = k')); [done|exact IH].
Qed.

Lemma dict_set_Forall (P : string * V -> Prop) k v d :
  Forall P d -> P (k, v) -> Forall P (Dict.set k v d).
Proof.
  intros Hd Hkv. induction Hd as [|[k' v'] d He Hd IH]; simpl.
  - by constructor.
  - destruct (decide (k' = k)); by constructor.
Qed.

Lemma dict_get_Forall (P : string * V -> Prop) k v d :
  Forall P d -> Dict.get k d = Some v -> P (k, v).
Proof.
  induction 1 as [|[k' v'] d He Hd IH]; simpl; [done|].
  destruct (decide (k' = k)) as [->|Hne]; [|done].
  by intros [= ->].
Qed.

Lemma dict_set_divide k v d :
  exists pre post,
    Dict.set k v d = pre ++ (k, v) :: post
    /\ Forall (fun e => e.1 <> k) pre
    /\ Forall (fun e => e ∈ d) pre
    /\ Forall (fun e => e ∈ d) post.
Proof.
  induction d as [|[k' v'] d IH]; simpl.
  - exists [], []. split_and!; by try constructor.
  - destruct (decide (k' = k)) as [->|Hne].
    + exists [], d. split_and!; try by constructor.
      apply Forall_forall. intros e He. by right.
    + destruct IH as (pre & post & -> & Hk & Hpre & Hpost).
      exists ((k', v') :: pre), post. split_and!; try done.
      * by constructor.
      * constructor; [by left|].
        eapply Forall_impl; [exact Hpre|]. intros e He. by right.
      * eapply Forall_impl; [exact Hpost|]. intros e He. by right.
Qed.

Lemma dict_set_mesmo k v d : Dict.get k d = Some v -> Dict.set k v d = d.
Proof.
  induction d as [|[k' v'] d IH]; simpl; [done|].
  destruct (decide (k' = k)) as [->|Hne]; [by intros [= ->]|].
  intros Hg. by rewrite IH.
Qed.
End DictLemas.

(** ** The knowledge base *)

Section Conhecimento.
Context `{BibliotecaTexto}.
Implicit Types (kb pre post : list (string * info)) (t p : string) (m n : nat).

Lemma passo_conhecimento_toma t r m e :
  0 < correspondencia e.1 t -> m < correspondencia e.1 t ->
  passo_conhecimento t (r, m) e = (Some (resposta e.2), correspondencia e.1 t).
Proof.
  intros H0 Hm. unfold passo_conhecimento. simpl.
  rewrite !bool_decide_eq_true_2 by done. done.
Qed.

Lemma passo_conhecimento_mantem t r m e :
  correspondencia e.1 t <= m -> passo_conhecimento t (r, m) e = (r, m).
Proof.
  intros Hle. unfold passo_conhecimento. simpl.
  destruct (bool_decide (0 < _)); simpl; [|done].
  rewrite bool_decide_eq_false_2 by lia. done.
Qed.

Lemma foldl_conhecimento_mantem t kb r m :
  Forall (fun e => correspondencia e.1 t <= m) kb ->
  foldl (passo_conhecimento t) (r, m) kb = (r, m).
Proof.
  induction 1 as [|e kb He _ IH]; simpl; [done|].
  by rewrite passo_conhecimento_mantem.
Qed.

Lemma foldl_conhecimento_abaixo t n kb : forall r m,
  m < n -> Forall (fun e => correspondencia e.1 t < n) kb ->
  (foldl (passo_conhecimento t) (r, m) kb).2 < n.
Proof.
  induction kb as [|e kb IH]; intros r m Hm Hall; simpl; [done|].
  inversion Hall as [|? ? He Hkb]; subst.
  destruct (decide (0 < correspondencia e.1 t /\ m < correspondencia e.1 t)) as [[H0 H1]|Hn].
  - rewrite passo_conhecimento_toma by done. by apply IH.
  - rewrite passo_conhecimento_mantem by lia. by apply IH.
Qed.

Lemma busca_conhecimento_no_primeiro_maximo t pre p i post :
  0 < correspondencia p t ->
  Forall (fun e => correspondencia e.1 t < correspondencia p t) pre ->
  Forall (fun e => correspondencia e.1 t <= correspondencia p t) post ->
  busca_conhecimento (pre ++ (p, i) :: post) t = Some (resposta i).
Proof.
  intros H0 Hpre Hpost. unfold busca_conhecimento.
  rewrite foldl_app. simpl.
  pose proof (foldl_conhecimento_abaixo t _ pre None 0 H0 Hpre) as Hlt.
  destruct (foldl (passo_conhecimento t) (None, 0) pre) as [r m]. simpl in Hlt.
  rewrite (passo_conhecimento_toma t r m (p, i)) by done. simpl.
  by rewrite foldl_conhecimento_mantem.
Qed.

Lemma primeiro_maximo_existe t kb : forall m,
  Forall (fun e => correspondencia e.1 t <= m) kb
  \/ exists pre p i post, kb = pre ++ (p, i) :: post
       /\ m < correspondencia p t
       /\ Forall (fun e => correspondencia e.1 t < correspondencia p t) pre
       /\ Forall (fun e => correspondencia e.1 t <= correspondencia p t) post.
Proof.
  induction kb as [|[q j] kb IH]; intros m; [by left|].
  destruct (decide (correspondencia q t <= m)) as [Hle|Hgt].
  - destruct (IH m) as [Hall|(pre & p & i & post & -> & Hm & Hpre & Hpost)].
    + left. by constructor.
    + right. exists ((q, j) :: pre), p, i, post. split_and!; try done.
      constructor; [simpl; lia|done].
  - destruct (IH (correspondencia q t)) as [Hall|(pre & p & i & post & -> & Hm & Hpre & Hpost)].
    + right. exists [], q, j, kb. split_and!; try done; lia.
    + right. exists ((q, j) :: pre), p, i, post. split_and!; try done; [lia|].
      constructor; [simpl; lia|done].
Qed.

(** C2. The knowledge matcher returns the reply of the first entry, in
    insertion order, whose number of shared words is greatest and above
    zero: either every entry shares no word with the message and the
    result is no match, whatever the size of the base, or the base splits
    at an entry that shares at least one word, strictly more than every
    entry before it and at least as many as every entry after it, and the
    result is the reply of that entry. *)
Theorem busca_conhecimento_primeiro_maximo kb t :
  (Forall (fun e => correspondencia e.1 t = 0) kb /\ busca_conhecimento kb t = None)
  \/ (exists pre p i post, kb = pre ++ (p, i) :: post
       /\ 0 < correspondencia p t
       /\ Forall (fun e => correspondencia e.1 t < correspondencia p t) pre
       /\ Forall (fun e => correspondencia e.1 t <= correspondencia p t) post
       /\ busca_conhecimento kb t = Some (resposta i)).
Proof.
  destruct (primeiro_maximo_existe t kb 0) as [Hall|(pre & p & i & post & -> & Hm & Hpre & Hpost)].
  - left. split.
    + eapply Forall_impl; [exact Hall|]. simpl. lia.
    + unfold busca_conhecimento. by rewrite foldl_conhecimento_mantem.
  - right. exists pre, p, i, post. split_and!; try done.
    by apply busca_conhecimento_no_primeiro_maximo.
Qed.
End Conhecimento.

(** ** The learned responses *)

Section Respostas.
Implicit Types (rs pre post : list (string * list item)) (t p : string).

Lemma maior_pontuacao_cons (m y : item) (resto : list item) :
  maior_pontuacao m (y :: resto)
  = maior_pontuacao (if decide (unidades (pontuacao m) < unidades (pontuacao y))%Z then y else m) resto.
Proof. reflexivity. Qed.

Lemma maior_pontuacao_invariante (resto : list item) : forall l1 m l2,
  Forall (fun y => (unidades (pontuacao y) < unidades (pontuacao m))%Z) l1 ->
  Forall (fun y => (unidades (pontuacao y) <= unidades (pontuacao m))%Z) l2 ->
  exists l1' l2',
    l1 ++ m :: l2 ++ resto = l1' ++ maior_pontuacao m resto :: l2'
    /\ Forall (fun y => (unidades (pontuacao y) < unidades (pontuacao (maior_pontuacao m resto)))%Z) l1'
    /\ Forall (fun y => (unidades (pontuacao y) <= unidades (pontuacao (maior_pontuacao m resto)))%Z) l2'.
Proof.
  induction resto as [|y resto IH]; intros l1 m l2 H1 H2.
  - exists l1, l2. by rewrite app_nil_r.
  - rewrite maior_pontuacao_cons.
    destruct (decide (unidades (pontuacao m) < unidades (pontuacao y))%Z) as [Hlt|Hge].
    + destruct (IH (l1 ++ m :: l2) y []) as (l1' & l2' & E & A & B).
      * apply Forall_app. split.
        -- eapply Forall_impl; [exact H1|]. simpl. intros z Hz. lia.
        -- constructor; [done|].
           eapply Forall_impl; [exact H2|]. simpl. intros z Hz. lia.
      * constructor.
      * exists l1', l2'. split; [|done].
        rewrite <- E. by rewrite <- !app_assoc.
    + destruct (IH l1 m (l2 ++ [y])) as (l1' & l2' & E & A & B).
      * done.
      * apply Forall_app. split; [done|]. constructor; [|done].
        lia.
      * exists l1', l2'. split; [|done].
        rewrite <- E. by rewrite <- !app_assoc.
Qed.

Lemma maior_pontuacao_primeiro_maximo (x : item) (xs : list item) :
  exists l1 l2,
    x :: xs = l1 ++ maior_pontuacao x xs :: l2
    /\ Forall (fun y => (unidades (pontuacao y) < unidades (pontuacao (maior_pontuacao x xs)))%Z) l1
    /\ Forall (fun y => (unidades (pontuacao y) <= unidades (pontuacao (maior_pontuacao x xs)))%Z) l2.
Proof.
  destruct (maior_pontuacao_invariante xs [] x []) as (l1 & l2 & E & A & B);
    [constructor..|].
  by exists l1, l2.
Qed.

Lemma busca_respostas_app pre post t :
  busca_respostas (pre ++ post) t =
  match busca_respostas pre t with
  | Some r => Some r
  | None => busca_respostas post t
  end.
Proof.
  induction pre as [|[p [|x xs]] pre IH]; simpl; [done| |].
  - destruct (casa p t); exact IH.
  - destruct (casa p t); [done|exact IH].
Qed.

Lemma busca_respostas_sem_parada pre t :
  Forall (fun e => casa e.1 t = true -> e.2 = []) pre ->
  busca_respostas pre t = None.
Proof.
  induction 1 as [|[p c] pre He _ IH]; simpl; [done|].
  destruct (casa p t) eqn:E; [|done].
  simpl in He. by rewrite He.
Qed.

Lemma busca_respostas_primeira_parada pre p x xs post t :
  Forall (fun e => casa e.1 t = true -> e.2 = []) pre ->
  casa p t = true ->
  busca_respostas (pre ++ (p, x :: xs) :: post) t
  = Some (texto (maior_pontuacao x xs)).
Proof.
  intros Hpre Hp. rewrite busca_respostas_app, busca_respostas_sem_parada by done.
  simpl. by rewrite Hp.
Qed.

(** C3, amended. The learned-response matcher scans the patterns in storage
    order and stops at the first pattern that satisfies the containment in
    either direction and has at least one candidate: the result is the
    text of the candidate of that pattern with the greatest score, the
    first one among equals. *)
Theorem busca_respostas_primeira_com_candidatos pre p x xs post t :
  Forall (fun e => casa e.1 t = true -> e.2 = []) pre ->
  casa p t = true ->
  busca_respostas (pre ++ (p, x :: xs) :: post) t
    = Some (texto (maior_pontuacao x xs))
  /\ exists l1 l2,
       x :: xs = l1 ++ maior_pontuacao x xs :: l2
       /\ Forall (fun y => (unidades (pontuacao y) < unidades (pontuacao (maior_pontuacao x xs)))%Z) l1
       /\ Forall (fun y => (unidades (pontuacao y) <= unidades (pontuacao (maior_pontuacao x xs)))%Z) l2.
Proof.
  intros Hpre Hp. split.
  - by apply busca_respostas_primeira_parada.
  - apply maior_pontuacao_primeiro_maximo.
Qed.

(** The example of the specification: pattern "oi" with the candidates
    "ola" (score 2) and "oi tudo bem" (score 5), message "oi". *)
Lemma busca_respostas_exemplo_oi :
  Forall (fun e : string * list item => casa e.1 "oi" = true -> e.2 = []) []
  /\ casa "oi" "oi" = true
  /\ busca_respostas Exemplo.respostas_oi "oi" = Some "oi tudo bem".
Proof.
  split; [constructor|]. split; [reflexivity|].
  apply (busca_respostas_primeira_com_candidatos []
           "oi" {| texto := "ola"; pontuacao := Inteiro 2 |}
           [ {| texto := "oi tudo bem"; pontuacao := Inteiro 5 |} ] [] "oi");
    [constructor | reflexivity].
Defined.

(** C3 as worded: the scan would stop at the first pattern that satisfies
    the containment, so that the patterns after it would not count.  With
    the pattern "oi" holding no candidate, the pattern "o" after it
    decides the result. *)
Lemma busca_respostas_nao_para_em_lista_vazia :
  ~ (forall (pre : list (string * list item)) p cands post post' t,
       Forall (fun e => casa e.1 t = false) pre ->
       casa p t = true ->
       busca_respostas (pre ++ (p, cands) :: post) t
       = busca_respostas (pre ++ (p, cands) :: post') t).
Proof.
  intros Hc.
  specialize (Hc [] "oi" []
                [("o", [ {| texto := "ola"; pontuacao := Inteiro 1 |} ])] [] "oi").
  discriminate Hc; [constructor | reflexivity].
Qed.

(** C10. A pattern that satisfies the containment but has an empty list of
    candidates does not end the scan: a later pattern that satisfies the
    containment and has candidates supplies the reply. *)
Theorem busca_respostas_salta_lista_vazia pre p post1 q x xs post2 t :
  casa p t = true ->
  Forall (fun e => casa e.1 t = true -> e.2 = []) pre ->
  Forall (fun e => casa e.1 t = true -> e.2 = []) post1 ->
  casa q t = true ->
  busca_respostas (pre ++ (p, []) :: post1 ++ (q, x :: xs) :: post2) t
  = Some (texto (maior_pontuacao x xs)).
Proof.
  intros Hp Hpre Hpost1 Hq.
  replace (pre ++ (p, []) :: post1 ++ (q, x :: xs) :: post2)
    with ((pre ++ (p, []) :: post1) ++ (q, x :: xs) :: post2)
    by (by rewrite <- app_assoc).
  apply busca_respostas_primeira_parada; [|done].
  apply Forall_app. split; [done|]. by constructor.
Qed.

Lemma busca_respostas_salta_lista_vazia_exemplo :
  casa "oi" "oi" = true
  /\ Forall (fun e : string * list item => casa e.1 "oi" = true -> e.2 = [])
       [("bom dia", [ {| texto := "Bom dia!"; pontuacao := Inteiro 1 |} ])]
  /\ Forall (fun e : string * list item => casa e.1 "oi" = true -> e.2 = [])
       [("tchau", [ {| texto := "Ate logo"; pontuacao := Inteiro 3 |} ])]
  /\ casa "o" "oi" = true
  /\ busca_respostas Exemplo.respostas_com_vazio "oi" = Some "ola".
Proof.
  assert (H1 : Forall (fun e : string * list item => casa e.1 "oi" = true -> e.2 = [])
                 [("bom dia", [ {| texto := "Bom dia!"; pontuacao := Inteiro 1 |} ])])
    by (constructor; [intros Hc; vm_compute in Hc; discriminate Hc | constructor]).
  assert (H2 : Forall (fun e : string * list item => casa e.1 "oi" = true -> e.2 = [])
                 [("tchau", [ {| texto := "Ate logo"; pontuacao := Inteiro 3 |} ])])
    by (constructor; [intros Hc; vm_compute in Hc; discriminate Hc | constructor]).
  split; [reflexivity|]. split; [exact H1|]. split; [exact H2|].
  split; [reflexivity|].
  exact (busca_respostas_salta_lista_vazia _ "oi" _ "o"
           {| texto := "ola"; pontuacao := Inteiro 1 |}
           [ {| texto := "oi tudo bem"; pontuacao := Inteiro 1 |} ] [] "oi"
           eq_refl H1 H2 eq_refl).
Defined.

End Respostas.

(** ** Learning from feedback *)

Section Aprendizado.
Context `{BibliotecaTexto}.
Implicit Types (rs : list (string * list item)) (l : list item).


Lemma atualizar_existente_achado txt tipo l it :
  achar txt l = Some it ->
  match nova_pontuacao tipo (pontuacao it) with
  | Some p =>
      exists l',
        atualizar_existente txt tipo l = Atualizada l'
        /\ texto <$> l' = texto <$> l
        /\ achar txt l' = Some {| texto := texto it; pontuacao := p |}
  | None => atualizar_existente txt tipo l = Excecao
  end.
Proof.
  unfold achar. revert it. induction l as [|x l IH]; intros it; simpl; [done|].
  case_bool_decide as E.
  - intros [= ->]. rewrite decide_True by done.
    destruct (nova_pontuacao tipo (pontuacao it)) as [p|]; [|done].
    eexists. split; [done|]. split; [done|].
    simpl. by rewrite bool_decide_eq_true_2.
  - intros Hf. rewrite decide_False by done.
    specialize (IH it Hf).
    destruct (nova_pontuacao tipo (pontuacao it)) as [p|].
    + destruct IH as (l' & -> & Ht & Ha).
      exists (x :: l'). split; [done|]. split; [by rewrite !fmap_cons, Ht|].
      simpl. by rewrite bool_decide_eq_false_2.
    + by rewrite IH.
Qed.

Lemma atualizar_existente_ausente txt tipo l :
  achar txt l = None -> atualizar_existente txt tipo l = Ausente.
Proof.
  unfold achar. induction l as [|x l IH]; simpl; [done|].
  case_bool_decide as E; [done|].
  intros Hf. rewrite decide_False by done. by rewrite IH.
Qed.


(** The store after the key has been created when absent. *)
Lemma itens_de_criada chave rs :
  itens_de (if Dict.tem chave rs then rs else Dict.set chave [] rs) chave
  = itens_de rs chave.
Proof.
  unfold itens_de, Dict.tem.
  destruct (Dict.get chave rs) eqn:E; simpl; [by rewrite E|].
  by rewrite dict_get_set_eq.
Qed.

Lemma itens_de_set_eq chave l rs : itens_de (Dict.set chave l rs) chave = l.
Proof. unfold itens_de. by rewrite dict_get_set_eq. Qed.


(** The effect of the learning step once the conversation is found. *)
Lemma aprender_localizada ia mid tipo arq c :
  localizar_conversa mid (conversas ia) = Some (arq, Json c) ->
  exists rs1,
    respostas (_aprender_com_feedback ia mid tipo)
    = Dict.set (chave_de c)
        (itens_depois (texto_de c) tipo (itens_de (respostas ia) (chave_de c))) rs1
    /\ rs1 = (if Dict.tem (chave_de c) (respostas ia) then respostas ia
              else Dict.set (chave_de c) [] (respostas ia)).
Proof.
  intros Hloc. unfold _aprender_com_feedback. rewrite Hloc.
  eexists. split; [|reflexivity].
  fold (chave_de c). fold (texto_de c).
  change (default [] (Dict.get (chave_de c) ?r)) with (itens_de r (chave_de c)).
  rewrite itens_de_criada. unfold itens_depois.
  destruct (atualizar_existente _ _ _) eqn:E; [done..|].
  cbn [respostas com_respostas]. symmetry. apply dict_set_mesmo.
  unfold itens_de, Dict.tem in *.
  destruct (Dict.get (chave_de c) (respostas ia)) as [l|] eqn:Eg; [done|].
  by cbn in E.
Qed.

Lemma aprender_itens ia mid tipo arq c :
  localizar_conversa mid (conversas ia) = Some (arq, Json c) ->
  itens_de (respostas (_aprender_com_feedback ia mid tipo)) (chave_de c)
  = itens_depois (texto_de c) tipo (itens_de (respostas ia) (chave_de c)).
Proof.
  intros Hloc.
  destruct (aprender_localizada ia mid tipo arq c Hloc) as (rs1 & -> & _).
  apply itens_de_set_eq.
Qed.

Lemma aprender_conversas ia mid tipo :
  conversas (_aprender_com_feedback ia mid tipo) = conversas ia.
Proof.
  unfold _aprender_com_feedback.
  destruct (localizar_conversa mid (conversas ia)) as [[? [|?]]|]; [done| |done].
  by destruct (atualizar_existente _ _ _).
Qed.

Lemma aprender_conhecimento ia mid tipo :
  conhecimento (_aprender_com_feedback ia mid tipo) = conhecimento ia.
Proof.
  unfold _aprender_com_feedback.
  destruct (localizar_conversa mid (conversas ia)) as [[? [|?]]|]; [done| |done].
  by destruct (atualizar_existente _ _ _).
Qed.

Lemma itens_depois_textos txt tipo l :
  texto <$> itens_depois txt tipo l
  = match achar txt l with
    | Some _ => texto <$> l
    | None => (texto <$> l) ++ [txt]
    end.
Proof.
  unfold itens_depois.
  destruct (achar txt l) as [it|] eqn:Ha.
  - pose proof (atualizar_existente_achado _ tipo _ _ Ha) as Hu.
    destruct (nova_pontuacao tipo (pontuacao it)).
    + by destruct Hu as (l' & -> & -> & _).
    + by rewrite Hu.
  - rewrite (atualizar_existente_ausente _ tipo _ Ha). by rewrite fmap_app.
Qed.





Lemma processar_mensagem_respostas ia amb texto uid :
  respostas (processar_mensagem ia amb texto uid).1 = respostas ia.
Proof.
  unfold processar_mensagem, _registrar_conversa. simpl.
  by destruct (gravou amb), (truncou amb).
Qed.

Lemma processar_feedback_respostas ia data uid :
  respostas (processar_feedback ia data uid).1 = respostas ia.
Proof.
  unfold processar_feedback.
  by destruct (split _ data) as [|? [|? [|? ?]]].
Qed.



Lemma localizar_conversa_None mid dir :
  Forall (fun a => contido mid a.1 = false) dir ->
  localizar_conversa mid dir = None.
Proof.
  unfold localizar_conversa.
  induction 1 as [|a dir Ha _ IH]; simpl; [done|].
  by rewrite Ha.
Qed.


(** C7. When the message identifier occurs in the name of no conversation
    file, the learning step changes nothing: the knowledge base, the learned
    responses, the feedback table, the statistics and the conversation log
    are those of before. *)
Theorem aprender_sem_conversa_nao_muda ia mid tipo :
  Forall (fun a => contido mid a.1 = false) (conversas ia) ->
  _aprender_com_feedback ia mid tipo = ia.
Proof.
  intros Hnone. unfold _aprender_com_feedback.
  by rewrite localizar_conversa_None.
Qed.



End Aprendizado.



Lemma aprender_sem_conversa_nao_muda_exemplo :
  Forall (fun a : string * conteudo => contido "9999" a.1 = false)
    (conversas Exemplo.depois_de_oi)
  /\ @_aprender_com_feedback Latin1.biblioteca Exemplo.depois_de_oi "9999" "positivo"
     = Exemplo.depois_de_oi.
Proof.
  assert (H : Forall (fun a : string * conteudo => contido "9999" a.1 = false)
                (conversas Exemplo.depois_de_oi))
    by (constructor; [reflexivity | constructor]).
  split; [exact H|].
  exact (@aprender_sem_conversa_nao_muda Latin1.biblioteca
           Exemplo.depois_de_oi "9999" "positivo" H).
Defined.


(** ** The reply to a message *)

Section Resposta.
Context `{BibliotecaTexto}.

Lemma verdadeiro_Some s : s <> "" -> verdadeiro (Some s) = true.
Proof.
  intros Hs. unfold verdadeiro. apply negb_true_iff.
  by apply String.eqb_neq.
Qed.

Lemma verdadeiro_inv r : verdadeiro r = true -> exists s, r = Some s /\ s <> "".
Proof.
  destruct r as [s|]; simpl; [|done].
  intros Hs. exists s. split; [done|].
  apply String.eqb_neq. by apply negb_true_iff.
Qed.

Lemma escolher_resposta_conhecimento ia amb texto tn s :
  busca_conhecimento (conhecimento ia) tn = Some s -> s <> "" ->
  escolher_resposta ia amb texto tn = s.
Proof.
  intros Hb Hs.
  unfold escolher_resposta, apos_wikipedia, apos_respostas, apos_conhecimento.
  rewrite Hb. cbn zeta. by rewrite !verdadeiro_Some.
Qed.

Lemma correspondencia_total p tn :
  palavras (str_lower p) ⊆ palavras tn ->
  correspondencia p tn = size (palavras (str_lower p)).
Proof.
  intros Hsub. unfold correspondencia. f_equal.
  by apply subseteq_intersection_1_L.
Qed.

Lemma escolha_padrao_nao_vazia n : escolha_padrao n <> "".
Proof.
  unfold escolha_padrao.
  pose proof (Nat.mod_upper_bound n (length respostas_padrao)) as Hlt.
  destruct (n mod length respostas_padrao) as [|[|[|[|[|k]]]]]; simpl; try done.
  simpl in Hlt. lia.
Qed.

Lemma escolher_resposta_nao_vazia ia amb texto tn :
  escolher_resposta ia amb texto tn <> "".
Proof.
  unfold escolher_resposta. cbn zeta.
  destruct (verdadeiro (apos_wikipedia ia amb texto tn)) eqn:E.
  - apply verdadeiro_inv in E as (s & -> & Hs). done.
  - apply escolha_padrao_nao_vazia.
Qed.

Lemma resposta_primeira_verdadeira ia amb texto uid :
  (processar_mensagem ia amb texto uid).2
  = default (escolha_padrao (sorteio amb))
      (primeira_verdadeira
         [ busca_conhecimento (conhecimento ia) (normalizar texto);
           busca_respostas (respostas ia) (normalizar texto);
           buscar_na_wikipedia (wikipedia amb) texto ]).
Proof.
  unfold processar_mensagem, escolher_resposta, apos_wikipedia, apos_respostas,
    apos_conhecimento.
  cbn [snd conhecimento respostas com_estatisticas primeira_verdadeira].
  destruct (busca_conhecimento _ _) as [k|];
    [destruct (decide (k = "")) as [->|Hk]|];
    (destruct (busca_respostas _ _) as [l|];
     [destruct (decide (l = "")) as [->|Hl]|]);
    (destruct (buscar_na_wikipedia _ _) as [w|];
     [destruct (decide (w = "")) as [->|Hw]|]);
    rewrite ?verdadeiro_Some by done;
    change (verdadeiro (Some "")) with false;
    change (verdadeiro None) with false;
    cbv iota;
    rewrite ?verdadeiro_Some by done;
    change (verdadeiro (Some "")) with false;
    change (verdadeiro None) with false;
    cbv iota;
    rewrite ?verdadeiro_Some by done;
    done.
Qed.

(** The round trip of teaching, as far as it holds.  After a pattern with at
    least one word has been taught with a reply that is not empty, a
    message whose normalised words include all the words of the pattern
    in lower case gets exactly that reply, provided every other entry of
    the knowledge base shares fewer words with the message than the
    pattern has.  The words of a pattern are those of its lower case, the
    words of a message those of its transliteration: the first
    hypothesis fails for every pattern with a diacritic. *)
Lemma ensinar_e_perguntar ia p r agora amb texto uid :
  r <> "" ->
  palavras (str_lower p) <> ∅ ->
  palavras (str_lower p) ⊆ palavras (normalizar texto) ->
  Forall (fun e => e.1 <> p ->
            correspondencia e.1 (normalizar texto) < size (palavras (str_lower p)))
         (conhecimento ia) ->
  (processar_mensagem (adicionar_conhecimento ia p r agora) amb texto uid).2 = r.
Proof.
  intros Hr Hne Hsub Hout. unfold processar_mensagem. cbn [snd].
  apply escolher_resposta_conhecimento; [|done]. cbn [conhecimento com_estatisticas adicionar_conhecimento com_conhecimento].
  pose proof (correspondencia_total _ _ Hsub) as Hp.
  assert (0 < size (palavras (str_lower p))) as Hpos.
  { assert (size (palavras (str_lower p)) <> 0); [|lia].
    apply size_non_empty_iff. intros Heq. apply Hne. by apply leibniz_equiv. }
  destruct (dict_set_divide p {| resposta := r; data_adicao := agora |} (conhecimento ia))
    as (pre & post & -> & Hk & Hpre & Hpost).
  rewrite Forall_forall in Hout.
  change r with (resposta {| resposta := r; data_adicao := agora |}) at 2.
  apply busca_conhecimento_no_primeiro_maximo.
  - lia.
  - rewrite Hp. rewrite Forall_forall in Hk, Hpre. apply Forall_forall.
    intros e He. apply Hout; [by apply Hpre|by apply Hk].
  - rewrite Hp. rewrite Forall_forall in Hpost. apply Forall_forall.
    intros e He. destruct (decide (e.1 = p)) as [->|Hd].
    + by rewrite Hp.
    + apply Nat.lt_le_incl. apply Hout; [by apply Hpost|done].
Qed.

(** C9. An empty string coming out of a stage counts as no match, and the
    stages after it decide.  When the best entry of the knowledge base has
    the empty reply, the reply is the one of the same state with no
    knowledge base: the first non-empty result of the learned responses
    and of Wikipedia, in this order, hence the learned reply when there
    is one.  When the learned responses then give the empty text, the
    reply is the one of the same state with neither store: the extract
    of Wikipedia when it has one.  When Wikipedia then gives an empty
    summary, the reply is drawn from the default pool. *)
Theorem resposta_vazia_e_ausencia ia amb texto uid :
  (busca_conhecimento (conhecimento ia) (normalizar texto) = Some "" ->
     (processar_mensagem ia amb texto uid).2
     = (processar_mensagem (com_conhecimento ia []) amb texto uid).2
     /\ (processar_mensagem ia amb texto uid).2
        = default (escolha_padrao (sorteio amb))
            (primeira_verdadeira
               [ busca_respostas (respostas ia) (normalizar texto);
                 buscar_na_wikipedia (wikipedia amb) texto ])
     /\ (forall a, busca_respostas (respostas ia) (normalizar texto) = Some a ->
                   a <> "" -> (processar_mensagem ia amb texto uid).2 = a))
  /\ (verdadeiro (busca_conhecimento (conhecimento ia) (normalizar texto)) = false ->
      busca_respostas (respostas ia) (normalizar texto) = Some "" ->
     (processar_mensagem ia amb texto uid).2
     = (processar_mensagem (com_respostas (com_conhecimento ia []) []) amb texto uid).2
     /\ (processar_mensagem ia amb texto uid).2
        = default (escolha_padrao (sorteio amb))
            (primeira_verdadeira [ buscar_na_wikipedia (wikipedia amb) texto ])
     /\ (forall e, wikipedia amb texto = Resposta 200 (Some e) ->
                   e <> "" -> (processar_mensagem ia amb texto uid).2 = e))
  /\ (verdadeiro (busca_conhecimento (conhecimento ia) (normalizar texto)) = false ->
      verdadeiro (busca_respostas (respostas ia) (normalizar texto)) = false ->
      wikipedia amb texto = Resposta 200 (Some "") ->
     (processar_mensagem ia amb texto uid).2 = escolha_padrao (sorteio amb)).
Proof.
  rewrite !resposta_primeira_verdadeira.
  cbn [conhecimento respostas com_conhecimento com_respostas busca_respostas].
  change (busca_conhecimento [] (normalizar texto)) with (@None string).
  split_and!.
  - intros ->. cbn [primeira_verdadeira verdadeiro String.eqb negb].
    split_and!; [done..|].
    intros a -> Ha. by rewrite verdadeiro_Some.
  - intros Hk ->. cbn [primeira_verdadeira]. rewrite Hk.
    cbn [verdadeiro String.eqb negb].
    split_and!; [done..|].
    intros e He Hne. unfold buscar_na_wikipedia. rewrite He.
    rewrite bool_decide_eq_true_2 by done. by rewrite !verdadeiro_Some.
  - intros Hk Hr Hw. cbn [primeira_verdadeira]. rewrite Hk, Hr.
    unfold buscar_na_wikipedia. rewrite Hw.
    by rewrite bool_decide_eq_true_2.
Qed.
End Resposta.

(** The example of the specification, in a knowledge base that already
    holds another entry. *)
(** The example of the specification. *)
Lemma ensinar_e_perguntar_linguagem :
  "Sou feita em código" <> ""
  /\ @palavras Latin1.biblioteca (@str_lower Latin1.biblioteca "qual sua linguagem") <> ∅
  /\ @palavras Latin1.biblioteca (@str_lower Latin1.biblioteca "qual sua linguagem")
       ⊆ @palavras Latin1.biblioteca
           (@normalizar Latin1.biblioteca "qual é a sua linguagem favorita")
  /\ Forall (fun e : string * info => e.1 <> "qual sua linguagem" ->
        @correspondencia Latin1.biblioteca e.1
          (@normalizar Latin1.biblioteca "qual é a sua linguagem favorita")
        < size (@palavras Latin1.biblioteca
                  (@str_lower Latin1.biblioteca "qual sua linguagem")))
       (conhecimento Exemplo.com_saudacao)
  /\ (@processar_mensagem Latin1.biblioteca
        (adicionar_conhecimento Exemplo.com_saudacao "qual sua linguagem"
           "Sou feita em código" "2024-01-01 11:30:00")
        Exemplo.meio_dia "qual é a sua linguagem favorita" 7).2
     = "Sou feita em código".
Proof.
  assert (H1 : "Sou feita em código" <> "") by discriminate.
  assert (H2 : @palavras Latin1.biblioteca
                 (@str_lower Latin1.biblioteca "qual sua linguagem") <> ∅)
    by (apply (bool_decide_unpack _); vm_compute; exact I).
  assert (H3 : @palavras Latin1.biblioteca
                 (@str_lower Latin1.biblioteca "qual sua linguagem")
               ⊆ @palavras Latin1.biblioteca
                   (@normalizar Latin1.biblioteca "qual é a sua linguagem favorita"))
    by (apply (bool_decide_unpack _); vm_compute; exact I).
  assert (H4 : Forall (fun e : string * info => e.1 <> "qual sua linguagem" ->
                  @correspondencia Latin1.biblioteca e.1
                    (@normalizar Latin1.biblioteca "qual é a sua linguagem favorita")
                  < size (@palavras Latin1.biblioteca
                            (@str_lower Latin1.biblioteca "qual sua linguagem")))
                 (conhecimento Exemplo.com_saudacao))
    by (constructor; [intros _; vm_compute; lia | constructor]).
  split; [exact H1|]. split; [exact H2|]. split; [exact H3|]. split; [exact H4|].
  exact (@ensinar_e_perguntar Latin1.biblioteca Exemplo.com_saudacao
           "qual sua linguagem" "Sou feita em código" "2024-01-01 11:30:00"
           Exemplo.meio_dia "qual é a sua linguagem favorita" 7%Z H1 H2 H3 H4).
Defined.

(** An entry that shares as many words with the message comes first:
    teaching "bom" with the reply "Bom!" into a base that holds "bom dia",
    then asking "bom dia", whose words include the word of the taught
    pattern, gives the reply of "bom dia". *)
Lemma ensinar_e_perguntar_com_concorrente :
  ~ (forall ia p r agora amb texto uid,
       @palavras Latin1.biblioteca (@str_lower Latin1.biblioteca p)
         ⊆ @palavras Latin1.biblioteca (@normalizar Latin1.biblioteca texto) ->
       (@processar_mensagem Latin1.biblioteca
          (adicionar_conhecimento ia p r agora) amb texto uid).2 = r).
Proof.
  intros Hc.
  specialize (Hc Exemplo.com_saudacao "bom" "Bom!" "2024-01-01 11:30:00"
                Exemplo.meio_dia "bom dia" 7%Z).
  assert (Hsub : @palavras Latin1.biblioteca (@str_lower Latin1.biblioteca "bom")
                 ⊆ @palavras Latin1.biblioteca
                     (@normalizar Latin1.biblioteca "bom dia"))
    by (apply (bool_decide_unpack _); vm_compute; exact I).
  specialize (Hc Hsub). vm_compute in Hc. discriminate Hc.
Qed.

(** The three falls.  The entry "oi" with the empty reply leaves the reply
    to the learned pattern of the example; with every store giving the
    empty string the extract of Wikipedia is the reply; with Wikipedia
    giving the empty string too, the reply is the one that was drawn. *)
Lemma resposta_vazia_e_ausencia_exemplo :
  @busca_conhecimento Latin1.biblioteca (conhecimento Exemplo.vazio_e_oi)
    (@normalizar Latin1.biblioteca "oi") = Some ""
  /\ busca_respostas (respostas Exemplo.vazio_e_oi)
       (@normalizar Latin1.biblioteca "oi") = Some "oi tudo bem"
  /\ "oi tudo bem" <> ""
  /\ (@processar_mensagem Latin1.biblioteca
        Exemplo.vazio_e_oi Exemplo.meio_dia "oi" 7).2
     = "oi tudo bem"
  /\ verdadeiro (@busca_conhecimento Latin1.biblioteca
                   (conhecimento Exemplo.tudo_vazio)
                   (@normalizar Latin1.biblioteca "a")) = false
  /\ busca_respostas (respostas Exemplo.tudo_vazio)
       (@normalizar Latin1.biblioteca "a") = Some ""
  /\ wikipedia Exemplo.wikipedia_letra "a"
     = Resposta 200 (Some "A é a primeira letra do alfabeto.")
  /\ "A é a primeira letra do alfabeto." <> ""
  /\ (@processar_mensagem Latin1.biblioteca
        Exemplo.tudo_vazio Exemplo.wikipedia_letra "a" 7).2
     = "A é a primeira letra do alfabeto."
  /\ verdadeiro (busca_respostas (respostas Exemplo.tudo_vazio)
                   (@normalizar Latin1.biblioteca "a")) = false
  /\ wikipedia Exemplo.wikipedia_vazia "a" = Resposta 200 (Some "")
  /\ (@processar_mensagem Latin1.biblioteca
        Exemplo.tudo_vazio Exemplo.wikipedia_vazia "a" 7).2
     = (@processar_mensagem Latin1.biblioteca
          (com_respostas (com_conhecimento Exemplo.tudo_vazio []) [])
          Exemplo.wikipedia_vazia "a" 7).2
  /\ (@processar_mensagem Latin1.biblioteca
        Exemplo.tudo_vazio Exemplo.wikipedia_vazia "a" 7).2
     = "Poderia me ensinar mais sobre esse assunto?".
Proof.
  assert (N1 : "oi tudo bem" <> "") by discriminate.
  assert (N2 : "A é a primeira letra do alfabeto." <> "") by discriminate.
  destruct (@resposta_vazia_e_ausencia Latin1.biblioteca
              Exemplo.vazio_e_oi Exemplo.meio_dia "oi" 7%Z)
    as (A1 & _ & _).
  destruct (@resposta_vazia_e_ausencia Latin1.biblioteca
              Exemplo.tudo_vazio Exemplo.wikipedia_letra "a" 7%Z)
    as (_ & B2 & _).
  destruct (@resposta_vazia_e_ausencia Latin1.biblioteca
              Exemplo.tudo_vazio Exemplo.wikipedia_vazia "a" 7%Z)
    as (_ & C2 & C3).
  split; [reflexivity|]. split; [reflexivity|]. split; [exact N1|].
  split; [exact (proj2 (proj2 (A1 eq_refl)) _ eq_refl N1)|].
  split; [reflexivity|]. split; [reflexivity|]. split; [reflexivity|].
  split; [exact N2|].
  split; [exact (proj2 (proj2 (B2 eq_refl eq_refl)) _ eq_refl N2)|].
  split; [reflexivity|]. split; [reflexivity|].
  split; [exact (proj1 (C2 eq_refl eq_refl))|].
  exact (C3 eq_refl eq_refl eq_refl).
Defined.

(** ** Teaching a pattern with a diacritic *)

(** C8. Teaching a pattern and then asking with it does not give the taught
    reply when the pattern has a letter with a diacritic.  The words of the
    message are those of its transliteration ([unidecode] in
    [processar_mensagem]), the words of a pattern those of its lower case
    only (the loop over the knowledge base): the pattern "você", taught
    on a fresh installation, has the word "você", the message "você" has
    the word "voce", they share no word and the reply is drawn from the
    default pool.  The same pattern without the diacritic gets the
    taught reply, for the same message. *)
Theorem ensinar_com_acento_nao_responde :
  @palavras Latin1.biblioteca (@str_lower Latin1.biblioteca "você")
  = {[ "você" ]}
  /\ @palavras Latin1.biblioteca (@normalizar Latin1.biblioteca "você")
     = {[ "voce" ]}
  /\ @correspondencia Latin1.biblioteca "você"
       (@normalizar Latin1.biblioteca "você") = 0
  /\ conhecimento
       (adicionar_conhecimento Exemplo.__init__ "você" "Sou eu"
          "2024-01-01 11:00:00")
     = [("você", {| resposta := "Sou eu"; data_adicao := "2024-01-01 11:00:00" |})]
  /\ (@processar_mensagem Latin1.biblioteca
        (adicionar_conhecimento Exemplo.__init__ "você" "Sou eu"
           "2024-01-01 11:00:00")
        Exemplo.meio_dia "você" 7).2
     = "Poderia me ensinar mais sobre esse assunto?"
  /\ (@processar_mensagem Latin1.biblioteca
        (adicionar_conhecimento Exemplo.__init__ "você" "Sou eu"
           "2024-01-01 11:00:00")
        Exemplo.meio_dia "você" 7).2
     <> "Sou eu"
  /\ (@processar_mensagem Latin1.biblioteca
        (adicionar_conhecimento Exemplo.__init__ "voce" "Sou eu"
           "2024-01-01 11:00:00")
        Exemplo.meio_dia "você" 7).2
     = "Sou eu".
Proof.
  split; [by vm_compute|]. split; [by vm_compute|].
  split; [by vm_compute|]. split; [reflexivity|].
  split; [by vm_compute|]. split; [by vm_compute|]. by vm_compute.
Qed.

(** ** The feedback handler and the key of the learned pattern *)

(** C1. The handler of the feedback buttons records the feedback and never
    runs the learning step: it leaves the learned responses as they are.
    After user 7 has asked "oi", the callback "feedback_positivo_1200"
    (the identifier occurs in the name of the conversation file) adds the
    row to the feedback table and learns nothing, so that the same
    question gets a reply drawn from the default pool; the learning step
    on the same identifier would store the reply with the score 1 and the
    same question would get it back. *)
Theorem processar_feedback_nao_aprende :
  (forall ia data uid,
     respostas (processar_feedback ia data uid).1 = respostas ia)
  /\ tabela_feedback
       (processar_feedback Exemplo.depois_de_oi "feedback_positivo_1200" 7).1
     = [ {| f_mensagem_id := "1200"; f_user_id := 7;
            f_tipo_feedback := "positivo" |} ]
  /\ respostas
       (processar_feedback Exemplo.depois_de_oi "feedback_positivo_1200" 7).1
     = []
  /\ respostas (@_aprender_com_feedback Latin1.biblioteca
                  Exemplo.depois_de_oi "1200" "positivo")
     = [("oi", [ {| texto := "Poderia me ensinar mais sobre esse assunto?";
                    pontuacao := Inteiro 1 |} ])]
  /\ (@processar_mensagem Latin1.biblioteca
        (processar_feedback Exemplo.depois_de_oi "feedback_positivo_1200" 7).1
        Exemplo.mais_tarde "oi" 7).2
     = "Ainda estou aprendendo sobre isso."
  /\ (@processar_mensagem Latin1.biblioteca
        (@_aprender_com_feedback Latin1.biblioteca
           Exemplo.depois_de_oi "1200" "positivo")
        Exemplo.mais_tarde "oi" 7).2
     = "Poderia me ensinar mais sobre esse assunto?".
Proof.
  split; [apply processar_feedback_respostas|].
  split_and!; reflexivity.
Qed.

(** C4. The learning step files the conversation under the question in lower
    case and stripped, without the transliteration that the normalisation
    of a message applies.  For the recorded question "Olá" the key is
    "olá" while the normalisation of "Olá" is "ola": the two differ, and
    the same question asked again does not find the learned pattern. *)
Theorem chave_aprendida_sem_unidecode :
  respostas (@_aprender_com_feedback Latin1.biblioteca
               Exemplo.depois_de_ola "1200" "positivo")
  = [("olá", [ {| texto := "Poderia me ensinar mais sobre esse assunto?";
                  pontuacao := Inteiro 1 |} ])]
  /\ @normalizar Latin1.biblioteca "Olá" = "ola"
  /\ "olá" <> @normalizar Latin1.biblioteca "Olá"
  /\ busca_respostas
       (respostas (@_aprender_com_feedback Latin1.biblioteca
                     Exemplo.depois_de_ola "1200" "positivo"))
       (@normalizar Latin1.biblioteca "Olá")
     = None
  /\ (@processar_mensagem Latin1.biblioteca
        (@_aprender_com_feedback Latin1.biblioteca
           Exemplo.depois_de_ola "1200" "positivo")
        Exemplo.mais_tarde "Olá" 7).2
     = "Ainda estou aprendendo sobre isso.".
Proof.
  split; [reflexivity|]. split; [reflexivity|].
  split; [intros Hc; vm_compute in Hc; discriminate Hc|].
  split; reflexivity.
Qed.

(** * Further properties of the code *)

(** ** Dictionaries: keys, sizes and searches *)

Section DictMais.
Context {V : Type}.
Implicit Types (d : list (string * V)) (k : string) (v : V).

Lemma dict_tem_false k d : Dict.tem k d = false <-> k ∉ chaves d.
Proof.
  unfold Dict.tem, chaves. induction d as [|[k' v'] d IH]; simpl.
  - split; [intros _; apply not_elem_of_nil|done].
  - rewrite not_elem_of_cons. destruct (decide (k' = k)) as [->|Hne].
    + split; [done|]. intros [Hk _]. by destruct Hk.
    + rewrite IH. split; [intros Hd; split; [congruence|done]|by intros [_ Hd]].
Qed.

Lemma dict_tem_true k d : Dict.tem k d = true <-> k ∈ chaves d.
Proof.
  destruct (Dict.tem k d) eqn:E.
  - split; [intros _|done].
    destruct (decide (k ∈ chaves d)) as [Hin|Hout]; [done|].
    apply dict_tem_false in Hout. congruence.
  - split; [done|]. intros Hin. by apply dict_tem_false in E.
Qed.

Lemma dict_set_novo k v d : Dict.tem k d = false -> Dict.set k v d = d ++ [(k, v)].
Proof.
  unfold Dict.tem. induction d as [|[k' v'] d IH]; simpl; [done|].
  destruct (decide (k' = k)); [done|]. intros Hd. by rewrite IH.
Qed.

Lemma dict_set_chaves k v d :
  chaves (Dict.set k v d) = if Dict.tem k d then chaves d else chaves d ++ [k].
Proof.
  unfold Dict.tem, chaves. induction d as [|[k' v'] d IH]; [done|].
  cbn [Dict.set Dict.get]. destruct (decide (k' = k)) as [->|Hne].
  - by rewrite !fmap_cons.
  - rewrite !fmap_cons, IH. by destruct (Dict.get k d).
Qed.

Lemma dict_set_set k v1 v2 d : Dict.set k v2 (Dict.set k v1 d) = Dict.set k v2 d.
Proof.
  induction d as [|[k' v'] d IH]; simpl.
  - by rewrite decide_True.
  - destruct (decide (k' = k)) as [->|Hne]; simpl.
    + by rewrite decide_True.
    + rewrite decide_False by done. by rewrite IH.
Qed.

Lemma dict_set_NoDup k v d : NoDup (chaves d) -> NoDup (chaves (Dict.set k v d)).
Proof.
  intros Hnd. rewrite dict_set_chaves.
  destruct (Dict.tem k d) eqn:E; [done|].
  apply NoDup_app. split; [done|]. split; [|apply NoDup_singleton].
  intros x Hx Hx'. apply list_elem_of_singleton in Hx'. subst x.
  by apply dict_tem_false in E.
Qed.

Lemma dict_set_prefix k v d : chaves d `prefix_of` chaves (Dict.set k v d).
Proof.
  rewrite dict_set_chaves. destruct (Dict.tem k d); [done|].
  by apply prefix_app_r.
Qed.

Lemma dict_get_Some_chaves k v d : Dict.get k d = Some v -> k ∈ chaves d.
Proof.
  intros Hg. apply dict_tem_true. unfold Dict.tem. by rewrite Hg.
Qed.

Lemma dict_set_length k v d :
  length (Dict.set k v d) = if Dict.tem k d then length d else S (length d).
Proof.
  unfold Dict.tem. induction d as [|[k' v'] d IH]; [done|].
  cbn [Dict.set Dict.get]. destruct (decide (k' = k)) as [->|Hne]; [done|].
  cbn [length]. rewrite IH. by destruct (Dict.get k d).
Qed.

Lemma dict_tem_set k k' v d :
  Dict.tem k' (Dict.set k v d) = bool_decide (k = k') || Dict.tem k' d.
Proof.
  unfold Dict.tem. case_bool_decide as E.
  - subst. by rewrite dict_get_set_eq.
  - by rewrite dict_get_set_ne.
Qed.

Lemma dict_set_filter (P : string * V -> Prop) `{!forall e, Decision (P e)} k v d :
  (forall v', ~ P (k, v')) ->
  filter P (Dict.set k v d) = filter P d.
Proof.
  intros Hk. induction d as [|[k' v'] d IH]; cbn [Dict.set].
  - rewrite filter_cons, decide_False by apply Hk. done.
  - destruct (decide (k' = k)) as [->|Hne].
    + by rewrite !filter_cons, !decide_False by apply Hk.
    + rewrite !filter_cons, IH. done.
Qed.

Lemma find_dict_set (f : string -> bool) k v d :
  find (fun a => f a.1) d = None -> f k = true ->
  find (fun a => f a.1) (Dict.set k v d) = Some (k, v).
Proof.
  intros Hd Hk. induction d as [|[k' v'] d IH]; cbn [Dict.set find].
  - cbn. by rewrite Hk.
  - cbn [find] in Hd. cbn [fst] in *.
    destruct (f k') eqn:E; [done|].
    destruct (decide (k' = k)) as [->|Hne]; [congruence|].
    cbn [find fst]. rewrite E. by apply IH.
Qed.

End DictMais.

(** ** The directory of the conversations *)

Section Listagem.
Context {V : Type}.
Implicit Types (d : list (string * V)) (k : string) (v : V) (pos : nat).

Lemma inserir_get_eq k v d : forall pos,
  Dict.get k d = None ->
  Dict.get k (take pos d ++ (k, v) :: drop pos d) = Some v.
Proof.
  induction d as [|[k' v'] d IH]; intros pos.
  - intros _. rewrite take_nil, drop_nil. cbn. by rewrite decide_True.
  - cbn [Dict.get]. destruct (decide (k' = k)) as [->|Hne]; [done|]. intros Hd.
    destruct pos as [|pos]; cbn [take drop app Dict.get].
    + by rewrite decide_True.
    + rewrite decide_False by done. by apply IH.
Qed.

Lemma inserir_get_ne k k' v d : forall pos,
  k <> k' ->
  Dict.get k' (take pos d ++ (k, v) :: drop pos d) = Dict.get k' d.
Proof.
  intros pos Hne. revert pos. induction d as [|[k0 v0] d IH]; intros pos.
  - rewrite take_nil, drop_nil. cbn. by rewrite decide_False.
  - destruct pos as [|pos]; cbn [take drop app Dict.get].
    + by rewrite decide_False.
    + destruct (decide (k0 = k')); [done|apply IH].
Qed.

Lemma inserir_chaves k v d pos :
  chaves (take pos d ++ (k, v) :: drop pos d) ≡ₚ k :: chaves d.
Proof.
  unfold chaves. rewrite fmap_app, fmap_cons. cbn [fst].
  rewrite <- Permutation_middle. constructor.
  by rewrite <- fmap_app, take_drop.
Qed.

Lemma inserir_find (f : string -> bool) k v d : forall pos,
  find (fun a => f a.1) d = None -> f k = true ->
  find (fun a => f a.1) (take pos d ++ (k, v) :: drop pos d) = Some (k, v).
Proof.
  intros pos Hd Hk. revert pos Hd. induction d as [|[k' v'] d IH]; intros pos Hd.
  - rewrite take_nil, drop_nil. cbn. by rewrite Hk.
  - cbn [find fst] in Hd. destruct (f k') eqn:E; [done|].
    destruct pos as [|pos]; cbn [take drop app find fst].
    + by rewrite Hk.
    + rewrite E. by apply IH.
Qed.

End Listagem.

Section Gravar.
Implicit Types (dir : list (string * conteudo)) (c : conteudo).

Lemma gravar_get_eq pos arq c dir : Dict.get arq (gravar pos arq c dir) = Some c.
Proof.
  unfold gravar, Dict.tem. destruct (Dict.get arq dir) eqn:E.
  - apply dict_get_set_eq.
  - by apply inserir_get_eq.
Qed.

Lemma gravar_get_ne pos arq a c dir :
  arq <> a -> Dict.get a (gravar pos arq c dir) = Dict.get a dir.
Proof.
  intros Hne. unfold gravar. destruct (Dict.tem arq dir).
  - by apply dict_get_set_ne.
  - by apply inserir_get_ne.
Qed.

Lemma gravar_chaves pos arq c dir :
  chaves (gravar pos arq c dir)
  ≡ₚ if Dict.tem arq dir then chaves dir else arq :: chaves dir.
Proof.
  unfold gravar. destruct (Dict.tem arq dir) eqn:E.
  - by rewrite dict_set_chaves, E.
  - apply inserir_chaves.
Qed.

Lemma gravar_existente pos arq c dir :
  Dict.tem arq dir = true -> gravar pos arq c dir = Dict.set arq c dir.
Proof. unfold gravar. by intros ->. Qed.

Lemma gravar_NoDup pos arq c dir :
  NoDup (chaves dir) -> NoDup (chaves (gravar pos arq c dir)).
Proof.
  intros Hnd. rewrite gravar_chaves. destruct (Dict.tem arq dir) eqn:E; [done|].
  constructor; [|done]. by apply dict_tem_false.
Qed.

Lemma gravar_subseteq pos arq c dir :
  chaves dir ⊆ chaves (gravar pos arq c dir).
Proof.
  intros k Hk. rewrite gravar_chaves.
  destruct (Dict.tem arq dir); [done|by right].
Qed.

Lemma gravar_find (f : string -> bool) pos arq c dir :
  find (fun a => f a.1) dir = None -> f arq = true ->
  find (fun a => f a.1) (gravar pos arq c dir) = Some (arq, c).
Proof.
  intros Hd Hk. unfold gravar. destruct (Dict.tem arq dir).
  - by apply find_dict_set.
  - by apply inserir_find.
Qed.

End Gravar.

(** ** Strings: containment, [split] and [str] *)

Lemma prefix_refl_app a b : String.prefix a (a +:+ b) = true.
Proof.
  induction a as [|c a IH]; simpl; [by destruct b|].
  destruct (ascii_dec c c); [exact IH|done].
Qed.

Lemma contido_vazio b : contido "" b = true.
Proof. by destruct b. Qed.

Lemma contido_prefixo a b : contido a (a +:+ b) = true.
Proof.
  pose proof (prefix_refl_app a b) as Hp.
  destruct (a +:+ b) eqn:E; cbn [contido]; by rewrite Hp.
Qed.

Lemma contido_app a b c : contido a (b +:+ a +:+ c) = true.
Proof.
  induction b as [|x b IH]; [exact (contido_prefixo a c)|].
  change (String x b +:+ a +:+ c) with (String x (b +:+ a +:+ c)).
  cbn [contido]. rewrite IH. apply orb_true_r.
Qed.

Lemma append_vazio a : a +:+ "" = a.
Proof.
  induction a as [|x a IH]; [done|].
  change (String x (a +:+ "") = String x a). by rewrite IH.
Qed.

Lemma contido_refl a : contido a a = true.
Proof.
  pose proof (contido_prefixo a "") as Hp. by rewrite append_vazio in Hp.
Qed.

Lemma contido_char c s :
  contido (String c "") s = negb (ocorrencias c s =? 0)%nat.
Proof.
  induction s as [|c' s IH]; [done|].
  cbn [contido ocorrencias String.prefix].
  destruct (ascii_dec c c') as [->|Hne].
  - rewrite decide_True by done. by destruct s.
  - rewrite decide_False by done. simpl. exact IH.
Qed.

Lemma ocorrencias_app c a b :
  ocorrencias c (a +:+ b) = ocorrencias c a + ocorrencias c b.
Proof.
  induction a as [|x a IH]; [done|].
  simpl. rewrite IH. lia.
Qed.

Lemma split_nao_vazia sep s : split sep s <> [].
Proof.
  induction s as [|c s IH]; simpl; [done|].
  destruct (decide (c = sep)); [done|]. by destruct (split sep s).
Qed.

Lemma split_length sep s : length (split sep s) = S (ocorrencias sep s).
Proof.
  induction s as [|c s IH]; simpl; [done|].
  destruct (decide (c = sep)); simpl; [by rewrite IH|].
  destruct (split sep s); simpl in *; done.
Qed.

Lemma split_sem_separador sep s : ocorrencias sep s = 0 -> split sep s = [s].
Proof.
  induction s as [|c s IH]; simpl; [done|].
  destruct (decide (c = sep)); [done|]. simpl. intros Hs. by rewrite IH.
Qed.

Lemma split_app sep a b :
  ocorrencias sep a = 0 ->
  split sep (a +:+ String sep b) = a :: split sep b.
Proof.
  induction a as [|c a IH]; simpl.
  - intros _. by rewrite decide_True.
  - destruct (decide (c = sep)); [done|]. simpl. intros Ha. by rewrite IH.
Qed.

Lemma split_partes sep s : Forall (fun p => ocorrencias sep p = 0) (split sep s).
Proof.
  induction s as [|c s IH]; simpl; [by constructor|].
  destruct (decide (c = sep)) as [->|Hne]; [by constructor|].
  destruct (split sep s) as [|w ws]; [by constructor; [simpl; rewrite decide_False|]|].
  inversion IH; subst. constructor; [|done].
  simpl. by rewrite decide_False.
Qed.

Lemma join_split sep s : join sep (split sep s) = s.
Proof.
  induction s as [|c s IH]; simpl; [done|].
  destruct (decide (c = sep)) as [->|Hne].
  - pose proof (split_nao_vazia sep s).
    destruct (split sep s) as [|w ws] eqn:E; [done|].
    rewrite <- IH. done.
  - pose proof (split_nao_vazia sep s).
    destruct (split sep s) as [|w ws] eqn:E; [done|].
    rewrite <- IH. by destruct ws.
Qed.

Lemma uint_sem_sublinhado d : ocorrencias "_" (NilEmpty.string_of_uint d) = 0.
Proof. induction d; simpl; done. Qed.

Lemma str_of_Z_sem_sublinhado n : ocorrencias "_" (str_of_Z n) = 0.
Proof.
  unfold str_of_Z, NilZero.string_of_int, NilZero.string_of_uint.
  destruct (Z.to_int n) as [d|d]; destruct d; try done;
    cbn [ocorrencias]; rewrite ?decide_False by done; simpl;
    apply uint_sem_sublinhado.
Qed.

(** ** [split1] *)

Lemma split1_sem_separador sep s :
  ocorrencias sep s = 0 -> Telegram.split1 sep s = [s].
Proof.
  induction s as [|c s IH]; simpl; [done|].
  destruct (decide (c = sep)); [done|]. simpl. intros Hs. by rewrite IH.
Qed.

Lemma split1_app sep a b :
  ocorrencias sep a = 0 ->
  Telegram.split1 sep (a +:+ String sep b) = [a; b].
Proof.
  induction a as [|c a IH]; simpl.
  - intros _. by rewrite decide_True.
  - destruct (decide (c = sep)); [done|]. simpl. intros Ha. by rewrite IH.
Qed.

(** ** [replace] *)

Lemma contido_cons_false a c b :
  contido a (String c b) = false ->
  String.prefix a (String c b) = false /\ contido a b = false.
Proof. cbn [contido]. intros Hc. by apply orb_false_iff in Hc. Qed.

Lemma replace_aux_ausente old new s :
  contido old s = false -> Telegram.replace_aux old new s 0 = s.
Proof.
  induction s as [|c s IH]; [done|].
  intros Hc. apply contido_cons_false in Hc as [Hp Hc].
  cbn [Telegram.replace_aux]. rewrite Hp. by rewrite IH.
Qed.

Lemma replace_aux_saltar old new o s :
  Telegram.replace_aux old new (o +:+ s) (String.length o)
  = Telegram.replace_aux old new s 0.
Proof. induction o as [|c o IH]; [done|]. exact IH. Qed.

Lemma replace_aux_prefixo c o new s :
  Telegram.replace_aux (String c o) new (String c o +:+ s) 0
  = new +:+ Telegram.replace_aux (String c o) new s 0.
Proof.
  change (String c o +:+ s) with (String c (o +:+ s)).
  cbn [Telegram.replace_aux].
  change (String c (o +:+ s)) with (String c o +:+ s).
  rewrite prefix_refl_app.
  replace (String.length (String c o) - 1) with (String.length o)
    by (cbn [String.length]; lia).
  by rewrite replace_aux_saltar.
Qed.

Lemma replace_aux_ocorrencias x old s : forall k,
  ocorrencias x (Telegram.replace_aux old "" s k) <= ocorrencias x s.
Proof.
  induction s as [|c s IH]; intros k; [done|].
  cbn [Telegram.replace_aux]. destruct k as [|k].
  - destruct (String.prefix old (String c s)).
    + specialize (IH (String.length old - 1)).
      change ("" +:+ ?t) with t. cbn [ocorrencias]. lia.
    + specialize (IH 0). cbn [ocorrencias]. lia.
  - specialize (IH k). cbn [ocorrencias]. lia.
Qed.

Lemma prefix_cons_inv c o c' s :
  String.prefix (String c o) (String c' s) = true -> c = c' /\ String.prefix o s = true.
Proof. cbn [String.prefix]. by destruct (ascii_dec c c'). Qed.

Lemma replace_aux_conserva x old s : forall k o,
  old <> "" -> ocorrencias x old = 0 ->
  String.prefix o s = true -> ocorrencias x o = 0 -> String.length o = k ->
  ocorrencias x (Telegram.replace_aux old "" s k) = ocorrencias x s.
Proof.
  intros k o Hold Hx. revert k o.
  induction s as [|c s IH]; intros k o Hp Ho Hk; [done|].
  cbn [Telegram.replace_aux]. destruct k as [|k].
  - destruct (String.prefix old (String c s)) eqn:E.
    + destruct old as [|c0 o']; [done|].
      apply prefix_cons_inv in E as [-> E].
      change ("" +:+ ?t) with t.
      cbn [ocorrencias] in Hx |- *.
      destruct (decide (c = x)); [done|].
      rewrite (IH _ o'); [done|done|simpl in Hx; lia|cbn [String.length]; lia].
    + cbn [ocorrencias]. by rewrite (IH 0 "") by (done || by destruct s).
  - destruct o as [|c1 o1]; [done|].
    apply prefix_cons_inv in Hp as [-> Hp].
    cbn [ocorrencias] in Ho |- *.
    destruct (decide (c = x)); [done|].
    rewrite (IH k o1); [done|done|simpl in Ho; lia|simpl in Hk; lia].
Qed.

(** ** What a run keeps *)

Section Corridas.
Context `{BibliotecaTexto}.

(** X1. Each call changes its own store and nothing else: a message changes
    only the statistics and the conversation log, teaching only the
    knowledge base, the feedback handler only the feedback table, the
    learning step only the learned responses. *)
Theorem cada_operacao_muda_so_o_seu_acervo ia :
  (forall amb texto uid,
     com_conversas (com_estatisticas (processar_mensagem ia amb texto uid).1
                      (estatisticas ia)) (conversas ia) = ia)
  /\ (forall p r agora,
        com_conhecimento (adicionar_conhecimento ia p r agora) (conhecimento ia) = ia)
  /\ (forall data uid,
        com_tabela_feedback (processar_feedback ia data uid).1 (tabela_feedback ia) = ia)
  /\ (forall mid tipo,
        com_respostas (_aprender_com_feedback ia mid tipo) (respostas ia) = ia).
Proof.
  destruct ia as [kb rs es tf cs]. split_and!.
  - intros amb texto uid. unfold processar_mensagem, _registrar_conversa.
    cbn [fst]. by destruct (gravou amb), (truncou amb).
  - done.
  - intros data uid. unfold processar_feedback.
    by destruct (split _ data) as [|? [|? [|? ?]]].
  - intros mid tipo. unfold _aprender_com_feedback.
    destruct (localizar_conversa _ _) as [[? [|?]]|]; [done| |done].
    by destruct (atualizar_existente _ _ _).
Qed.

Lemma passo_conhecimento_chaves ia op :
  chaves (conhecimento ia) `prefix_of` chaves (conhecimento (executar1 ia op))
  /\ (NoDup (chaves (conhecimento ia)) -> NoDup (chaves (conhecimento (executar1 ia op)))).
Proof.
  destruct op as [amb texto uid|p r agora|data uid|mid tipo]; cbn [executar1].
  - unfold processar_mensagem, _registrar_conversa. cbn [fst].
    by destruct (gravou amb), (truncou amb).
  - cbn [adicionar_conhecimento com_conhecimento conhecimento].
    split; [apply dict_set_prefix|apply dict_set_NoDup].
  - unfold processar_feedback. by destruct (split _ data) as [|? [|? [|? ?]]].
  - by rewrite aprender_conhecimento.
Qed.

Lemma passo_conversas_chaves ia op :
  chaves (conversas ia) ⊆ chaves (conversas (executar1 ia op))
  /\ (NoDup (chaves (conversas ia)) -> NoDup (chaves (conversas (executar1 ia op)))).
Proof.
  destruct op as [amb texto uid|p r agora|data uid|mid tipo]; cbn [executar1].
  - unfold processar_mensagem, _registrar_conversa. cbn [fst].
    destruct (gravou amb); [|destruct (truncou amb); [|done]];
      cbn [com_conversas com_estatisticas conversas];
      (split; [apply gravar_subseteq|apply gravar_NoDup]).
  - done.
  - unfold processar_feedback. by destruct (split _ data) as [|? [|? [|? ?]]].
  - by rewrite aprender_conversas.
Qed.

Lemma passo_respostas_chaves ia op :
  chaves (respostas ia) `prefix_of` chaves (respostas (executar1 ia op))
  /\ (NoDup (chaves (respostas ia)) -> NoDup (chaves (respostas (executar1 ia op)))).
Proof.
  destruct op as [amb texto uid|p r agora|data uid|mid tipo]; cbn [executar1].
  - by rewrite processar_mensagem_respostas.
  - done.
  - by rewrite processar_feedback_respostas.
  - destruct (localizar_conversa mid (conversas ia)) as [[arq [|c]]|] eqn:Hloc;
      [unfold _aprender_com_feedback; by rewrite Hloc| |
       unfold _aprender_com_feedback; by rewrite Hloc].
    destruct (aprender_localizada ia mid tipo arq c Hloc) as (rs1 & -> & ->).
    destruct (Dict.tem _ (respostas ia)) eqn:E.
    + split; [apply dict_set_prefix|apply dict_set_NoDup].
    + split.
      * etrans; [apply dict_set_prefix|apply dict_set_prefix].
      * intros Hnd. by do 2 apply dict_set_NoDup.
Qed.

Lemma passo_tabela ia op :
  tabela_feedback ia `prefix_of` tabela_feedback (executar1 ia op).
Proof.
  destruct op as [amb texto uid|p r agora|data uid|mid tipo]; cbn [executar1].
  - unfold processar_mensagem, _registrar_conversa. cbn [fst].
    by destruct (gravou amb), (truncou amb).
  - done.
  - unfold processar_feedback.
    destruct (split _ data) as [|? [|? [|? ?]]]; try done.
    cbn [fst registrar_feedback com_tabela_feedback tabela_feedback].
    by apply prefix_app_r.
  - unfold _aprender_com_feedback.
    destruct (localizar_conversa _ _) as [[? [|?]]|]; [done| |done].
    by destruct (atualizar_existente _ _ _).
Qed.

Lemma passo_estatisticas ia op :
  interacoes (estatisticas (executar1 ia op))
  = (interacoes (estatisticas ia) + Z.of_nat (mensagens [op]))%Z
  /\ feedback_positivo (estatisticas (executar1 ia op)) = feedback_positivo (estatisticas ia)
  /\ feedback_negativo (estatisticas (executar1 ia op)) = feedback_negativo (estatisticas ia).
Proof.
  destruct op as [amb texto uid|p r agora|data uid|mid tipo]; cbn [executar1 mensagens].
  - unfold processar_mensagem, _registrar_conversa. cbn [fst].
    by destruct (gravou amb), (truncou amb).
  - split_and!; [cbn; lia|done..].
  - unfold processar_feedback.
    destruct (split _ data) as [|? [|? [|? ?]]]; (split_and!; [cbn; lia|done..]).
  - unfold _aprender_com_feedback.
    destruct (localizar_conversa _ _) as [[? [|?]]|];
      [|destruct (atualizar_existente _ _ _)|]; (split_and!; [cbn; lia|done..]).
Qed.

(** X2. No run of the program deletes a key.  The patterns of the knowledge
    base and the learned patterns before a run are, in the same order,
    the first ones after it; the conversation files before a run are
    all there after it, wherever the file system lists the new ones. *)
Theorem chaves_em_ordem_estavel ops : forall ia,
  chaves (conhecimento ia) `prefix_of` chaves (conhecimento (executar ia ops))
  /\ chaves (respostas ia) `prefix_of` chaves (respostas (executar ia ops))
  /\ chaves (conversas ia) ⊆ chaves (conversas (executar ia ops)).
Proof.
  induction ops as [|op ops IH]; intros ia; [done|].
  destruct (IH (executar1 ia op)) as (A & B & C).
  split_and!; (etrans; [|eassumption]).
  - apply passo_conhecimento_chaves.
  - apply passo_respostas_chaves.
  - apply passo_conversas_chaves.
Qed.

(** X3. Keys stay unique: from a state in which no pattern of the knowledge
    base, no learned pattern and no conversation file name occurs twice,
    every run leads to such a state. *)
Theorem chaves_sem_repeticao ops : forall ia,
  NoDup (chaves (conhecimento ia)) ->
  NoDup (chaves (respostas ia)) ->
  NoDup (chaves (conversas ia)) ->
  NoDup (chaves (conhecimento (executar ia ops)))
  /\ NoDup (chaves (respostas (executar ia ops)))
  /\ NoDup (chaves (conversas (executar ia ops))).
Proof.
  induction ops as [|op ops IH]; intros ia A B C; [done|].
  apply IH.
  - by apply passo_conhecimento_chaves.
  - by apply passo_respostas_chaves.
  - by apply passo_conversas_chaves.
Qed.

(** X4. The feedback table is append-only: the rows before a run are,
    unchanged and in order, the first rows after it. *)
Theorem tabela_feedback_so_cresce ops : forall ia,
  tabela_feedback ia `prefix_of` tabela_feedback (executar ia ops).
Proof.
  induction ops as [|op ops IH]; intros ia; [done|].
  etrans; [apply passo_tabela|apply IH].
Qed.

Lemma mensagens_cons op ops : mensagens (op :: ops) = mensagens [op] + mensagens ops.
Proof. by destruct op. Qed.

(** X5. After a run the counter of interactions has grown by exactly the
    number of messages of the run, and the counters of positive and
    negative feedback are what they were: no call of the program counts
    a feedback. *)
Theorem contadores_da_corrida ops : forall ia,
  interacoes (estatisticas (executar ia ops))
  = (interacoes (estatisticas ia) + Z.of_nat (mensagens ops))%Z
  /\ feedback_positivo (estatisticas (executar ia ops)) = feedback_positivo (estatisticas ia)
  /\ feedback_negativo (estatisticas (executar ia ops)) = feedback_negativo (estatisticas ia).
Proof.
  induction ops as [|op ops IH]; intros ia.
  - split_and!; [cbn; lia|done..].
  - destruct (IH (executar1 ia op)) as (A & B & C).
    destruct (passo_estatisticas ia op) as (A' & B' & C').
    change (executar ia (op :: ops)) with (executar (executar1 ia op) ops).
    rewrite A, B, C, A', B', C', (mensagens_cons op ops). split_and!; [lia|done..].
Qed.

End Corridas.

(** ** The handlers of the buttons and of [/ensinar] *)

Section Manipuladores.
Context `{BibliotecaTexto}.

(** X6. The callback handler drops the query, leaving the state as it is and
    acknowledging nothing, exactly when the callback data holds fewer
    than two underscores. *)
Theorem processar_feedback_exige_tres_partes ia data uid :
  processar_feedback ia data uid = (ia, None) <-> ocorrencias "_" data < 2.
Proof.
  pose proof (split_length "_" data) as Hl.
  unfold processar_feedback.
  destruct (split _ data) as [|a [|t [|m r]]]; simpl in Hl; split; try done; try lia.
Qed.

(** X7. For callback data of the form a_t_m, where a, t and m hold no
    underscore, the handler appends the row (m, user, t) and
    acknowledges; whatever follows a third underscore is ignored. *)
Theorem processar_feedback_partes ia a t m r uid :
  ocorrencias "_" a = 0 -> ocorrencias "_" t = 0 -> ocorrencias "_" m = 0 ->
  let feito :=
    (registrar_feedback ia m uid t,
     Some (if decide (t = "positivo")
           then "Obrigado pelo feedback! Isso me ajuda a melhorar. 😊"
           else "Obrigado pelo feedback. Vou tentar melhorar! 🤔")) in
  processar_feedback ia (a +:+ "_" +:+ t +:+ "_" +:+ m) uid = feito
  /\ processar_feedback ia (a +:+ "_" +:+ t +:+ "_" +:+ m +:+ "_" +:+ r) uid = feito.
Proof.
  intros Ha Ht Hm feito. unfold processar_feedback.
  pose proof (fun a b => split_app "_" a b : _ -> split "_" (a +:+ "_" +:+ b) = _) as E.
  rewrite !E by done.
  rewrite (split_sem_separador _ m) by done. done.
Qed.

(** X8. Round trip of the feedback buttons: the callback data that the
    message handler attaches to a reply is parsed by the callback
    handler into the polarity of the button and the decimal text of the
    message identifier, for every identifier, negative ones included. *)
Theorem botoes_ida_e_volta ia amb texto uid mid ia' uid' :
  let botoes := (Telegram.processar_mensagem ia amb texto uid mid).2 in
  processar_feedback ia' botoes.1 uid'
  = (registrar_feedback ia' (str_of_Z mid) uid' "positivo",
     Some "Obrigado pelo feedback! Isso me ajuda a melhorar. 😊")
  /\ processar_feedback ia' botoes.2 uid'
     = (registrar_feedback ia' (str_of_Z mid) uid' "negativo",
        Some "Obrigado pelo feedback. Vou tentar melhorar! 🤔").
Proof.
  cbn [Telegram.processar_mensagem snd fst]. unfold processar_feedback.
  change ("feedback_positivo_" +:+ ?s)
    with ("feedback" +:+ String "_" ("positivo" +:+ String "_" s)).
  change ("feedback_negativo_" +:+ ?s)
    with ("feedback" +:+ String "_" ("negativo" +:+ String "_" s)).
  rewrite !split_app by done.
  rewrite split_sem_separador by apply str_of_Z_sem_sublinhado. done.
Qed.

(** X9. The command /ensinar answers with the format error and leaves the
    state unchanged exactly when the text of the message holds no
    vertical bar. *)
Theorem ensinar_formato_incorreto ia text agora :
  Telegram.ensinar ia text agora
  = (ia, "Formato incorreto. Use: /ensinar pergunta | resposta")
  <-> ocorrencias "|" text = 0.
Proof.
  unfold Telegram.ensinar. rewrite contido_char.
  assert (E : ocorrencias "|" (Telegram.replace "/ensinar " "" text)
              = ocorrencias "|" text).
  { apply (replace_aux_conserva _ _ _ 0 ""); try done. by destruct text. }
  rewrite E. destruct (ocorrencias "|" text) as [|n]; simpl; [done|].
  split; [|done]. intros [= _ Hm]. 
Qed.

Lemma replace_ensinar_prefixo s :
  Telegram.replace "/ensinar " "" ("/ensinar " +:+ s) = Telegram.replace "/ensinar " "" s.
Proof. unfold Telegram.replace. by rewrite replace_aux_prefixo. Qed.

Lemma ensinar_partes ia text p r agora :
  ocorrencias "|" p = 0 ->
  Telegram.replace "/ensinar " "" text = p +:+ "|" +:+ r ->
  Telegram.ensinar ia text agora
  = (adicionar_conhecimento ia (str_strip p) (str_strip r) agora,
     "Obrigado! Aprendi que quando me perguntarem sobre '" +:+ str_strip p
     +:+ "', devo responder: '" +:+ str_strip r +:+ "'").
Proof.
  intros Hp E. unfold Telegram.ensinar. rewrite E.
  rewrite contido_char, ocorrencias_app.
  change (ocorrencias "|" ("|" +:+ r)) with (S (ocorrencias "|" r)).
  rewrite Nat.add_succ_r. cbn [Nat.eqb negb].
  change ("|" +:+ r) with (String "|" r).
  by rewrite split1_app.
Qed.

(** X10. For the text /ensinar p|r, where p holds no bar and the command
    word does not occur again, the command stores r, stripped, under p,
    stripped, and says so; r may hold further bars, which stay in the
    reply. *)
Theorem ensinar_comando_aprende ia p r agora :
  ocorrencias "|" p = 0 ->
  contido "/ensinar " (p +:+ "|" +:+ r) = false ->
  Telegram.ensinar ia ("/ensinar " +:+ p +:+ "|" +:+ r) agora
  = (adicionar_conhecimento ia (str_strip p) (str_strip r) agora,
     "Obrigado! Aprendi que quando me perguntarem sobre '" +:+ str_strip p
     +:+ "', devo responder: '" +:+ str_strip r +:+ "'").
Proof.
  intros Hp Hc. apply ensinar_partes; [done|].
  rewrite replace_ensinar_prefixo. unfold Telegram.replace.
  by apply replace_aux_ausente.
Qed.

(** X11. Putting the command word in front of a text does not change what
    the handler does with it: the text /ensinar s is handled exactly as
    s, so a command word that is repeated is removed as well. *)
Theorem ensinar_prefixo_repetido ia s agora :
  Telegram.ensinar ia ("/ensinar " +:+ s) agora = Telegram.ensinar ia s agora.
Proof. unfold Telegram.ensinar. by rewrite replace_ensinar_prefixo. Qed.

End Manipuladores.


(** ** The stages of the reply *)

Section Canal.
Context `{BibliotecaTexto}.

Lemma verdadeiro_false r : verdadeiro r = false <-> r = None \/ r = Some "".
Proof.
  destruct r as [s|]; simpl.
  - rewrite negb_false_iff, String.eqb_eq. split; [intros ->; by right|].
    by intros [|[= ->]].
  - split; [by left|done].
Qed.

(** The reply is the first non-empty result of the three stages, in the
    order knowledge base, learned responses, Wikipedia; the default pool
    when there is none. *)
(** X12. The reply to a message is the first result that is neither absent
    nor empty among the knowledge base, the learned responses and
    Wikipedia, in this order, and the draw from the default pool when
    there is none. *)
Theorem ordem_das_etapas ia amb texto uid :
  (processar_mensagem ia amb texto uid).2
  = default (escolha_padrao (sorteio amb))
      (primeira_verdadeira
         [ busca_conhecimento (conhecimento ia) (normalizar texto);
           busca_respostas (respostas ia) (normalizar texto);
           buscar_na_wikipedia (wikipedia amb) texto ]).
Proof. apply resposta_primeira_verdadeira. Qed.

(** X13. The reply to a message is never the empty string, whatever the
    state, the environment and the message. *)
Theorem resposta_nunca_vazia ia amb texto uid :
  (processar_mensagem ia amb texto uid).2 <> "".
Proof. apply escolher_resposta_nao_vazia. Qed.

Lemma escolha_padrao_pertence n : escolha_padrao n ∈ respostas_padrao.
Proof.
  unfold escolha_padrao. apply list_elem_of_In, nth_In.
  apply Nat.mod_upper_bound. done.
Qed.

Lemma busca_conhecimento_sem_palavras kb tn :
  Forall (fun e => correspondencia e.1 tn = 0) kb -> busca_conhecimento kb tn = None.
Proof.
  intros Hall. unfold busca_conhecimento. rewrite foldl_conhecimento_mantem; [done|].
  eapply Forall_impl; [exact Hall|]. simpl. lia.
Qed.

(** X14. When no pattern of the knowledge base shares a word with the
    message, no learned pattern contains the normalised message or is
    contained in it, and Wikipedia gives nothing, the reply is the drawn
    element of the default pool, hence one of its five texts. *)
Theorem resposta_do_repertorio_padrao ia amb texto uid :
  Forall (fun e => correspondencia e.1 (normalizar texto) = 0) (conhecimento ia) ->
  Forall (fun e => casa e.1 (normalizar texto) = false) (respostas ia) ->
  buscar_na_wikipedia (wikipedia amb) texto = None ->
  (processar_mensagem ia amb texto uid).2 = escolha_padrao (sorteio amb)
  /\ (processar_mensagem ia amb texto uid).2 ∈ respostas_padrao.
Proof.
  intros Hk Hr Hw.
  assert (E : (processar_mensagem ia amb texto uid).2 = escolha_padrao (sorteio amb)).
  { unfold processar_mensagem, escolher_resposta, apos_wikipedia, apos_respostas,
      apos_conhecimento.
    cbn [snd conhecimento respostas com_estatisticas].
    rewrite busca_conhecimento_sem_palavras by done.
    rewrite busca_respostas_sem_parada; [by rewrite Hw|].
    eapply Forall_impl; [exact Hr|]. simpl. congruence. }
  split; [done|]. rewrite E. apply escolha_padrao_pertence.
Qed.

(** X15. The Wikipedia stage gives a text exactly when the request succeeds
    with status 200 and a non-empty extract, and then it gives that
    extract; a failure, another status, a missing or an empty extract
    all give nothing. *)
Theorem buscar_na_wikipedia_sucesso web pergunta s :
  buscar_na_wikipedia web pergunta = Some s
  <-> web pergunta = Resposta 200 (Some s) /\ s <> "".
Proof.
  unfold buscar_na_wikipedia. destruct (web pergunta) as [|st ex].
  - split; [done|]. by intros [? _].
  - case_bool_decide as Est.
    + subst st. destruct (verdadeiro ex) eqn:Ev.
      * apply verdadeiro_inv in Ev as (s' & -> & Hs'). split.
        -- by intros [= ->].
        -- by intros [[= ->] _].
      * split; [done|]. intros [[= ->] Hs]. by rewrite verdadeiro_Some in Ev.
    + split; [done|]. intros [[= E _] _]. done.
Qed.

End Canal.

(** ** The conversation log and teaching *)

Section Registro.
Context `{BibliotecaTexto}.

(** X16. After a message the file named after the user and the second holds
    the user, the time stamp, the message as it was sent (not
    normalised) and the reply that was returned, when the write
    succeeded.  When it failed after the file had been opened, the file
    is there and cannot be read, whatever it held before; when the file
    could not be opened, it is what it was.  No other file of the log
    changes. *)
Theorem conversa_registrada ia amb texto uid :
  let r := processar_mensagem ia amb texto uid in
  let arq := arquivo_de uid (carimbo amb) in
  Dict.get arq (conversas r.1)
  = (if gravou amb
     then Some (Json {| c_user_id := uid; c_timestamp := carimbo amb;
                        c_pergunta := Some texto; c_resposta := Some r.2 |})
     else if truncou amb then Some Ilegivel
     else Dict.get arq (conversas ia))
  /\ (forall a, a <> arq -> Dict.get a (conversas r.1) = Dict.get a (conversas ia)).
Proof.
  unfold processar_mensagem, _registrar_conversa. fold (arquivo_de uid (carimbo amb)).
  cbn [fst snd]. destruct (gravou amb); [|destruct (truncou amb); [|done]];
    cbn [conversas com_conversas com_estatisticas];
    (split; [apply gravar_get_eq|intros a Ha; by apply gravar_get_ne]).
Qed.

(** X17. Two messages of one user within the same second share one file: the
    second conversation replaces the first, and the log has as many
    files, under the same names, as after the first message. *)
Theorem conversas_no_mesmo_segundo ia amb1 amb2 t1 t2 uid :
  gravou amb1 = true -> gravou amb2 = true -> carimbo amb2 = carimbo amb1 ->
  let r1 := processar_mensagem ia amb1 t1 uid in
  let r2 := processar_mensagem r1.1 amb2 t2 uid in
  length (conversas r2.1) = length (conversas r1.1)
  /\ chaves (conversas r2.1) = chaves (conversas r1.1)
  /\ Dict.get (arquivo_de uid (carimbo amb1)) (conversas r2.1)
     = Some (Json {| c_user_id := uid; c_timestamp := carimbo amb1;
                     c_pergunta := Some t2; c_resposta := Some r2.2 |}).
Proof.
  intros G1 G2 Ec r1 r2.
  assert (E1 : Dict.tem (arquivo_de uid (carimbo amb1)) (conversas r1.1) = true).
  { subst r1. unfold processar_mensagem, _registrar_conversa.
    fold (arquivo_de uid (carimbo amb1)).
    cbn [fst snd]. rewrite G1. cbn [conversas com_conversas].
    unfold Dict.tem. by rewrite gravar_get_eq. }
  assert (E2 : conversas r2.1
               = Dict.set (arquivo_de uid (carimbo amb1))
                   (Json {| c_user_id := uid; c_timestamp := carimbo amb1;
                            c_pergunta := Some t2; c_resposta := Some r2.2 |})
                   (conversas r1.1)).
  { subst r2. unfold processar_mensagem at 1. unfold _registrar_conversa.
    fold (arquivo_de uid (carimbo amb2)).
    cbn [fst snd]. rewrite G2, Ec. cbn [conversas com_conversas com_estatisticas].
    by apply gravar_existente. }
  rewrite E2. split_and!.
  - by rewrite dict_set_length, E1.
  - by rewrite dict_set_chaves, E1.
  - apply dict_get_set_eq.
Qed.

(** ** Teaching *)

(** X18. Round trip of teaching: the entry of the taught pattern holds the
    taught reply and the time of the call, every other pattern keeps its
    entry, and the base grows by one entry, appended last, when the
    pattern is new and keeps its size and order otherwise. *)
Theorem ensinar_e_consultar ia p r agora :
  let ia' := adicionar_conhecimento ia p r agora in
  Dict.get p (conhecimento ia') = Some {| resposta := r; data_adicao := agora |}
  /\ (forall q, q <> p -> Dict.get q (conhecimento ia') = Dict.get q (conhecimento ia))
  /\ length (conhecimento ia')
     = (if Dict.tem p (conhecimento ia) then length (conhecimento ia)
        else S (length (conhecimento ia)))
  /\ chaves (conhecimento ia')
     = (if Dict.tem p (conhecimento ia) then chaves (conhecimento ia)
        else chaves (conhecimento ia) ++ [p]).
Proof.
  cbn [adicionar_conhecimento com_conhecimento conhecimento]. split_and!.
  - apply dict_get_set_eq.
  - intros q Hq. by apply dict_get_set_ne.
  - apply dict_set_length.
  - apply dict_set_chaves.
Qed.

(** X19. Teaching a pattern twice leaves the state that teaching it only the
    second time gives: the last reply wins and nothing of the first
    remains. *)
Theorem ensinar_de_novo_substitui ia p r1 a1 r2 a2 :
  adicionar_conhecimento (adicionar_conhecimento ia p r1 a1) p r2 a2
  = adicionar_conhecimento ia p r2 a2.
Proof.
  unfold adicionar_conhecimento, com_conhecimento. cbn [conhecimento respostas estatisticas tabela_feedback conversas].
  by rewrite dict_set_set.
Qed.

(** Teaching a pattern that shares no word with a message does not change
    the reply to that message. *)
Lemma foldl_conhecimento_filter tn kb : forall acc,
  foldl (passo_conhecimento tn) acc kb
  = foldl (passo_conhecimento tn) acc
      (filter (fun e => 0 < correspondencia e.1 tn) kb).
Proof.
  induction kb as [|e kb IH]; intros acc; [done|].
  rewrite filter_cons. destruct (decide (0 < correspondencia e.1 tn)) as [Hp|Hn].
  - cbn [foldl]. apply IH.
  - cbn [foldl]. rewrite <- IH. f_equal.
    unfold passo_conhecimento. by rewrite (bool_decide_eq_false_2 _ Hn).
Qed.

(** X20. Teaching a pattern that shares no word with a message does not
    change the reply to that message. *)
Theorem ensinar_sem_relacao_nao_muda ia p r agora amb texto uid :
  correspondencia p (normalizar texto) = 0 ->
  (processar_mensagem (adicionar_conhecimento ia p r agora) amb texto uid).2
  = (processar_mensagem ia amb texto uid).2.
Proof.
  intros Hp.
  unfold processar_mensagem, escolher_resposta, apos_wikipedia, apos_respostas,
    apos_conhecimento.
  cbn [snd conhecimento respostas com_estatisticas adicionar_conhecimento com_conhecimento].
  assert (E : busca_conhecimento
                (Dict.set p {| resposta := r; data_adicao := agora |} (conhecimento ia))
                (normalizar texto)
              = busca_conhecimento (conhecimento ia) (normalizar texto)).
  { unfold busca_conhecimento.
    rewrite foldl_conhecimento_filter, (foldl_conhecimento_filter _ (conhecimento ia)).
    rewrite dict_set_filter; [done|]. intros v'. cbn [fst]. lia. }
  by rewrite E.
Qed.

End Registro.

(** ** The learning step *)

Section Aprendiz.
Context `{BibliotecaTexto}.
Implicit Types (rs : list (string * list item)) (l : list item).

Lemma atualizar_existente_outro txt tipo l outro :
  outro <> txt ->
  match atualizar_existente txt tipo l with
  | Atualizada l' => achar outro l' = achar outro l
  | _ => True
  end.
Proof.
  intros Hne. unfold achar.
  induction l as [|it l IH]; cbn [atualizar_existente]; [done|].
  destruct (decide (texto it = txt)) as [E|E].
  - destruct (nova_pontuacao tipo (pontuacao it)); [|done].
    cbn [find texto]. by rewrite !bool_decide_eq_false_2 by congruence.
  - destruct (atualizar_existente txt tipo l) as [|l0|]; [done| |done].
    cbn [find]. by rewrite IH.
Qed.

Lemma achar_app_outro txt tipo l outro :
  outro <> txt -> achar outro (l ++ [novo_item txt tipo]) = achar outro l.
Proof.
  intros Hne. unfold achar. induction l as [|it l IH]; cbn [app find].
  - cbn [novo_item texto]. by rewrite bool_decide_eq_false_2 by congruence.
  - by rewrite IH.
Qed.

Lemma itens_de_outra_chave ia mid tipo arq c k :
  localizar_conversa mid (conversas ia) = Some (arq, Json c) ->
  k <> chave_de c ->
  itens_de (respostas (_aprender_com_feedback ia mid tipo)) k = itens_de (respostas ia) k.
Proof.
  intros Hloc Hk.
  destruct (aprender_localizada ia mid tipo arq c Hloc) as (rs1 & -> & ->).
  unfold itens_de. rewrite dict_get_set_ne by done.
  destruct (Dict.tem _ _); [done|]. by rewrite dict_get_set_ne.
Qed.

Lemma itens_depois_outro txt tipo l outro :
  outro <> txt -> achar outro (itens_depois txt tipo l) = achar outro l.
Proof.
  intros Hne. unfold itens_depois.
  pose proof (atualizar_existente_outro txt tipo l outro Hne) as Hu.
  destruct (atualizar_existente txt tipo l); [|done..].
  by apply achar_app_outro.
Qed.

(** X21. The learning step changes one candidate only: every candidate under
    another pattern, and every candidate of the same pattern with
    another text, is after the step what it was before, score included. *)
Theorem aprender_nao_toca_outros_candidatos ia mid tipo arq c k txt :
  localizar_conversa mid (conversas ia) = Some (arq, Json c) ->
  (k, txt) <> (chave_de c, texto_de c) ->
  candidato (respostas (_aprender_com_feedback ia mid tipo)) k txt
  = candidato (respostas ia) k txt.
Proof.
  intros Hloc Hne. unfold candidato.
  destruct (decide (k = chave_de c)) as [->|Hk].
  - assert (txt <> texto_de c) as Ht by congruence.
    rewrite (aprender_itens _ _ _ _ _ Hloc).
    by apply itens_depois_outro.
  - by rewrite (itens_de_outra_chave _ _ _ _ _ _ Hloc Hk).
Qed.

Lemma passo_textos_prefixo ia op k :
  texto <$> itens_de (respostas ia) k
  `prefix_of` texto <$> itens_de (respostas (executar1 ia op)) k.
Proof.
  destruct op as [amb t uid|p r agora|data uid|mid tipo]; cbn [executar1].
  - by rewrite processar_mensagem_respostas.
  - done.
  - by rewrite processar_feedback_respostas.
  - destruct (localizar_conversa mid (conversas ia)) as [[arq [|c]]|] eqn:Hloc.
    + unfold _aprender_com_feedback. by rewrite Hloc.
    + destruct (decide (k = chave_de c)) as [->|Hk].
      * rewrite (aprender_itens _ _ _ _ _ Hloc), itens_depois_textos.
        destruct (achar _ _); [done|]. by apply prefix_app_r.
      * by rewrite (itens_de_outra_chave _ _ _ _ _ _ Hloc Hk).
    + unfold _aprender_com_feedback. by rewrite Hloc.
Qed.

(** X22. No run removes or reorders the candidates of a learned pattern:
    their texts before the run are, in order, the first texts after it. *)
Theorem candidatos_ficam_no_lugar ops : forall ia k,
  texto <$> itens_de (respostas ia) k
  `prefix_of` texto <$> itens_de (respostas (executar ia ops)) k.
Proof.
  induction ops as [|op ops IH]; intros ia k; [done|].
  etrans; [apply passo_textos_prefixo|apply IH].
Qed.

Lemma localizar_primeira mid d1 a c d2 :
  Forall (fun e => contido mid e.1 = false) d1 ->
  contido mid a = true ->
  localizar_conversa mid (d1 ++ (a, c) :: d2) = Some (a, c).
Proof.
  intros Hd1 Ha. unfold localizar_conversa.
  induction Hd1 as [|e d1 He _ IH]; cbn [app find].
  - cbn [fst]. by rewrite Ha.
  - by rewrite He.
Qed.

(** X23. The learning step uses the first file, in listing order, whose name
    contains the identifier: its result is the one it has when that file
    is the only one of the log, whatever files follow; when that file
    cannot be read the step changes nothing, even if a later file
    matches. *)
Theorem aprender_usa_primeira_conversa ia mid tipo d1 a c d2 :
  conversas ia = d1 ++ (a, c) :: d2 ->
  Forall (fun e => contido mid e.1 = false) d1 ->
  contido mid a = true ->
  _aprender_com_feedback ia mid tipo
  = com_conversas
      (_aprender_com_feedback (com_conversas ia [(a, c)]) mid tipo)
      (conversas ia)
  /\ (c = Ilegivel -> _aprender_com_feedback ia mid tipo = ia).
Proof.
  intros Hc Hd1 Ha.
  pose proof (localizar_primeira mid d1 a c d2 Hd1 Ha) as Hloc.
  rewrite <- Hc in Hloc.
  unfold _aprender_com_feedback. rewrite Hloc.
  cbn [conversas com_conversas localizar_conversa find fst]. rewrite Ha.
  destruct ia as [kb rs es tf cs]. split; [|by intros ->].
  destruct c as [|cv]; [done|]. cbn [respostas conversas com_conversas].
  by destruct (atualizar_existente _ _ _).
Qed.

Lemma busca_respostas_None rs t :
  busca_respostas rs t = None ->
  Forall (fun e => casa e.1 t = true -> e.2 = []) rs.
Proof.
  induction rs as [|[p [|x xs]] rs IH]; cbn [busca_respostas]; [by constructor| |].
  - intros Hn. constructor; [done|]. apply IH. by destruct (casa p t).
  - destruct (casa p t) eqn:E; [done|]. intros Hn. constructor; [|by apply IH].
    cbn [fst]. congruence.
Qed.

Lemma casa_refl p : casa p p = true.
Proof. unfold casa. by rewrite contido_refl. Qed.

Lemma resposta_aprendida ia amb texto uid a :
  verdadeiro (busca_conhecimento (conhecimento ia) (normalizar texto)) = false ->
  busca_respostas (respostas ia) (normalizar texto) = Some a -> a <> "" ->
  (processar_mensagem ia amb texto uid).2 = a.
Proof.
  intros Hk Hr Ha.
  unfold processar_mensagem, escolher_resposta, apos_wikipedia, apos_respostas,
    apos_conhecimento.
  cbn [snd conhecimento respostas com_estatisticas].
  rewrite Hk, Hr. by rewrite !verdadeiro_Some.
Qed.

Lemma executar_sem_ensino ops : forall ia,
  forallb conversa_ou_botao ops = true ->
  conhecimento (executar ia ops) = conhecimento ia
  /\ respostas (executar ia ops) = respostas ia.
Proof.
  induction ops as [|op ops IH]; intros ia; [done|].
  cbn [forallb]. intros Hops. apply andb_true_iff in Hops as [Hop Hops].
  change (executar ia (op :: ops)) with (executar (executar1 ia op) ops).
  destruct (IH (executar1 ia op) Hops) as [-> ->].
  destruct op as [amb texto uid|p r agora|data uid|mid tipo]; try done;
    cbn [executar1].
  - split; [|apply processar_mensagem_respostas].
    unfold processar_mensagem, _registrar_conversa. cbn [fst].
    by destruct (gravou amb), (truncou amb).
  - split; [|apply processar_feedback_respostas].
    unfold processar_feedback. by destruct (split _ data) as [|? [|? [|? ?]]].
Qed.

(** X24. Learning closes the loop: when a question missed the knowledge base
    and the learned responses, its conversation was logged, and the
    learning step is run with a positive feedback on an identifier that
    occurs in the name of that file and of no file that was there, the
    same question gets the same reply right after the step and after
    any further messages and button presses, whatever Wikipedia or the
    draw would give, as long as nothing is taught and nothing else is
    learned; this needs the key filed by the learner to be the
    normalised question, which holds for a question without
    diacritics. *)
Theorem aprender_e_perguntar ia amb texto uid mid ops amb' uid' :
  gravou amb = true ->
  localizar_conversa mid (conversas ia) = None ->
  contido mid (arquivo_de uid (carimbo amb)) = true ->
  verdadeiro (busca_conhecimento (conhecimento ia) (normalizar texto)) = false ->
  busca_respostas (respostas ia) (normalizar texto) = None ->
  str_strip (str_lower texto) = normalizar texto ->
  forallb conversa_ou_botao ops = true ->
  let r := processar_mensagem ia amb texto uid in
  (processar_mensagem
     (executar (_aprender_com_feedback r.1 mid "positivo") ops)
     amb' texto uid').2
  = r.2.
Proof.
  intros Hg Hloc0 Hmid Hk Hr Hn Hops r.
  set (dados := {| c_user_id := uid; c_timestamp := carimbo amb;
                   c_pergunta := Some texto; c_resposta := Some r.2 |}).
  assert (Ec : conversas r.1
               = gravar (posicao amb) (arquivo_de uid (carimbo amb)) (Json dados)
                   (conversas ia)).
  { subst r dados. unfold processar_mensagem, _registrar_conversa.
    cbn [fst snd]. by rewrite Hg. }
  assert (Ers : respostas r.1 = respostas ia)
    by apply processar_mensagem_respostas.
  assert (Ekb : conhecimento r.1 = conhecimento ia).
  { subst r. unfold processar_mensagem, _registrar_conversa.
    cbn [fst]. by destruct (gravou amb), (truncou amb). }
  assert (Hloc : localizar_conversa mid (conversas r.1)
                 = Some (arquivo_de uid (carimbo amb), Json dados)).
  { rewrite Ec. unfold localizar_conversa. by apply gravar_find. }
  assert (Hch : chave_de dados = normalizar texto) by exact Hn.
  assert (Htx : texto_de dados = r.2) by done.
  pose proof (busca_respostas_None _ _ Hr) as Hall.
  assert (Hit : itens_de (respostas ia) (normalizar texto) = []).
  { unfold itens_de. destruct (Dict.get _ _) as [l|] eqn:E; [|done].
    apply (dict_get_Forall _ _ _ _ Hall E), casa_refl. }
  destruct (aprender_localizada r.1 mid "positivo" _ _ Hloc) as (rs1 & Ers2 & Ers1).
  rewrite Hch, Htx, Ers, Hit in Ers2.
  change (itens_depois r.2 "positivo" []) with [novo_item r.2 "positivo"] in Ers2.
  rewrite Hch, Ers in Ers1.
  assert (Hrs1 : Forall (fun e => casa e.1 (normalizar texto) = true -> e.2 = []) rs1).
  { rewrite Ers1. destruct (Dict.tem _ _); [done|]. by apply dict_set_Forall. }
  destruct (executar_sem_ensino ops (_aprender_com_feedback r.1 mid "positivo") Hops)
    as [Ekb' Ers'].
  apply resposta_aprendida.
  - by rewrite Ekb', aprender_conhecimento, Ekb.
  - rewrite Ers', Ers2.
    destruct (dict_set_divide (normalizar texto) [novo_item r.2 "positivo"] rs1)
      as (pre & post & -> & _ & Hpre & _).
    rewrite busca_respostas_primeira_parada; [done| |apply casa_refl].
    rewrite Forall_forall in Hrs1, Hpre. apply Forall_forall.
    intros e He. by apply Hrs1, Hpre.
  - apply escolher_resposta_nao_vazia.
Qed.

End Aprendiz.


(** ** Where a reply comes from *)

Section Origem.
Context `{BibliotecaTexto}.

Lemma maior_pontuacao_pertence x xs : maior_pontuacao x xs ∈ x :: xs.
Proof.
  destruct (maior_pontuacao_primeiro_maximo x xs) as (l1 & l2 & E & _).
  rewrite E. apply elem_of_app. right. by left.
Qed.

Lemma busca_respostas_Some rs tn a :
  busca_respostas rs tn = Some a ->
  exists p l it, (p, l) ∈ rs /\ casa p tn = true /\ it ∈ l /\ a = texto it.
Proof.
  induction rs as [|[p l] rs IH]; cbn [busca_respostas]; [done|].
  destruct (casa p tn) eqn:E.
  - destruct l as [|x xs].
    + intros Ha. destruct (IH Ha) as (p' & l' & it & Hin & ?).
      exists p', l', it. split; [by right|done].
    + intros [= <-]. exists p, (x :: xs), (maior_pontuacao x xs).
      split_and!; [by left|done|apply maior_pontuacao_pertence|done].
  - intros Ha. destruct (IH Ha) as (p' & l' & it & Hin & ?).
    exists p', l', it. split; [by right|done].
Qed.

Lemma busca_conhecimento_Some kb tn s :
  busca_conhecimento kb tn = Some s ->
  exists p i, (p, i) ∈ kb /\ 0 < correspondencia p tn /\ s = resposta i.
Proof.
  intros Hs.
  destruct (primeiro_maximo_existe tn kb 0)
    as [Hall|(pre & p & i & post & -> & Hm & Hpre & Hpost)].
  - unfold busca_conhecimento in Hs. by rewrite foldl_conhecimento_mantem in Hs.
  - rewrite busca_conhecimento_no_primeiro_maximo in Hs by done.
    injection Hs as <-. exists p, i. split_and!; [|done..].
    apply elem_of_app. right. by left.
Qed.

Lemma buscar_na_wikipedia_Some web pergunta s :
  buscar_na_wikipedia web pergunta = Some s -> web pergunta = Resposta 200 (Some s).
Proof.
  unfold buscar_na_wikipedia. destruct (web pergunta) as [|st ex]; [done|].
  case_bool_decide as Est; [|done]. subst st.
  destruct (verdadeiro ex); [|done]. by intros ->.
Qed.

Lemma primeira_verdadeira_Some rs s :
  primeira_verdadeira rs = Some s -> Some s ∈ rs /\ s <> "".
Proof.
  induction rs as [|r rs IH]; cbn [primeira_verdadeira]; [done|].
  destruct (verdadeiro r) eqn:E.
  - intros ->. apply verdadeiro_inv in E as (s' & [= ->] & Hs).
    split; [by left|done].
  - intros Hs. destruct (IH Hs) as [Hin ?]. split; [by right|done].
Qed.

(** X25. The program never makes up a reply: it is the reply of a knowledge
    entry that shares a word with the message, or the text of a
    candidate of a learned pattern that matches the message, or the
    extract that Wikipedia returned with status 200, or a text of the
    default pool. *)
Theorem origem_da_resposta ia amb mensagem uid :
  let r := (processar_mensagem ia amb mensagem uid).2 in
  (exists p i, (p, i) ∈ conhecimento ia
     /\ 0 < correspondencia p (normalizar mensagem) /\ r = resposta i)
  \/ (exists p l it, (p, l) ∈ respostas ia
        /\ casa p (normalizar mensagem) = true /\ it ∈ l /\ r = texto it)
  \/ wikipedia amb mensagem = Resposta 200 (Some r)
  \/ r ∈ respostas_padrao.
Proof.
  cbv zeta. rewrite resposta_primeira_verdadeira.
  destruct (primeira_verdadeira _) as [s|] eqn:E; cbn [default].
  - apply primeira_verdadeira_Some in E as [E _].
    apply elem_of_cons in E as [E|E];
      [|apply elem_of_cons in E as [E|E];
        [|apply list_elem_of_singleton in E]].
    + left. by apply busca_conhecimento_Some.
    + right. left. by apply busca_respostas_Some.
    + right. right. left. by apply buscar_na_wikipedia_Some.
  - do 3 right. apply escolha_padrao_pertence.
Qed.

(** X26. The knowledge base sees a message only through its set of words:
    two normalised messages with the same words, in whatever order and
    number, get the same result from every knowledge base. *)
Theorem mesmas_palavras_mesma_resposta kb tn tn' :
  palavras tn = palavras tn' ->
  busca_conhecimento kb tn = busca_conhecimento kb tn'.
Proof.
  intros E. unfold busca_conhecimento. f_equal.
  generalize (@None string, 0). induction kb as [|e kb IH]; intros acc; [done|].
  cbn [foldl]. rewrite IH. f_equal.
  unfold passo_conhecimento, correspondencia. by rewrite E.
Qed.

(** X27. The containment test is satisfied by the empty string on either
    side: a first learned pattern that is the empty string and has
    candidates answers every message that reaches the learned responses,
    and a message whose normalised text is empty is answered by the
    first learned pattern, whatever it is, when it has candidates. *)
Theorem vazio_casa_com_tudo p x xs rs tn :
  busca_respostas (("", x :: xs) :: rs) tn = Some (texto (maior_pontuacao x xs))
  /\ busca_respostas ((p, x :: xs) :: rs) "" = Some (texto (maior_pontuacao x xs)).
Proof.
  cbn [busca_respostas]. unfold casa. rewrite !contido_vazio.
  by rewrite orb_true_r.
Qed.

End Origem.


(** ** The properties above on concrete runs *)

(** A run that teaches a pattern again, logs two messages in the same second
    and learns twice. *)
Lemma chaves_sem_repeticao_exemplo :
  NoDup (chaves (conhecimento Exemplo.com_saudacao))
  /\ NoDup (chaves (respostas Exemplo.com_saudacao))
  /\ NoDup (chaves (conversas Exemplo.com_saudacao))
  /\ NoDup (chaves (conhecimento
       (@executar Latin1.biblioteca Exemplo.com_saudacao
          [ Ensinar "bom dia" "Bom dia para você!" "2024-01-01 11:30:00";
            Mensagem Exemplo.meio_dia "oi" 7;
            Mensagem Exemplo.meio_dia "tchau" 7;
            Aprender "1200" "positivo";
            Aprender "1200" "negativo" ])))
  /\ NoDup (chaves (respostas
       (@executar Latin1.biblioteca Exemplo.com_saudacao
          [ Ensinar "bom dia" "Bom dia para você!" "2024-01-01 11:30:00";
            Mensagem Exemplo.meio_dia "oi" 7;
            Mensagem Exemplo.meio_dia "tchau" 7;
            Aprender "1200" "positivo";
            Aprender "1200" "negativo" ])))
  /\ NoDup (chaves (conversas
       (@executar Latin1.biblioteca Exemplo.com_saudacao
          [ Ensinar "bom dia" "Bom dia para você!" "2024-01-01 11:30:00";
            Mensagem Exemplo.meio_dia "oi" 7;
            Mensagem Exemplo.meio_dia "tchau" 7;
            Aprender "1200" "positivo";
            Aprender "1200" "negativo" ]))).
Proof.
  assert (A : NoDup (chaves (conhecimento Exemplo.com_saudacao)))
    by apply NoDup_singleton.
  assert (B : NoDup (chaves (respostas Exemplo.com_saudacao)))
    by apply NoDup_nil_2.
  assert (C : NoDup (chaves (conversas Exemplo.com_saudacao)))
    by apply NoDup_nil_2.
  split; [exact A|]. split; [exact B|]. split; [exact C|].
  exact (@chaves_sem_repeticao Latin1.biblioteca _ _ A B C).
Defined.

(** The data of the negative button, alone and followed by more. *)
Lemma processar_feedback_partes_exemplo :
  ocorrencias "_" "feedback" = 0
  /\ ocorrencias "_" "negativo" = 0
  /\ ocorrencias "_" "1200" = 0
  /\ processar_feedback Exemplo.depois_de_oi "feedback_negativo_1200" 7
     = (registrar_feedback Exemplo.depois_de_oi "1200" 7 "negativo",
        Some "Obrigado pelo feedback. Vou tentar melhorar! 🤔")
  /\ processar_feedback Exemplo.depois_de_oi "feedback_negativo_1200_de_novo" 7
     = (registrar_feedback Exemplo.depois_de_oi "1200" 7 "negativo",
        Some "Obrigado pelo feedback. Vou tentar melhorar! 🤔").
Proof.
  do 3 (split; [reflexivity|]).
  exact (processar_feedback_partes Exemplo.depois_de_oi "feedback" "negativo" "1200"
           "de_novo" 7 eq_refl eq_refl eq_refl).
Defined.

(** A farewell that neither the greeting of the knowledge base nor the
    learned pattern of the example matches. *)
Lemma resposta_do_repertorio_padrao_exemplo :
  Forall (fun e : string * info =>
            @correspondencia Latin1.biblioteca e.1
              (@normalizar Latin1.biblioteca "Tchau!") = 0)
    (conhecimento (com_respostas Exemplo.com_saudacao Exemplo.respostas_oi))
  /\ Forall (fun e : string * list item =>
               casa e.1 (@normalizar Latin1.biblioteca "Tchau!") = false)
       (respostas (com_respostas Exemplo.com_saudacao Exemplo.respostas_oi))
  /\ buscar_na_wikipedia (wikipedia Exemplo.meio_dia) "Tchau!" = None
  /\ (@processar_mensagem Latin1.biblioteca
        (com_respostas Exemplo.com_saudacao Exemplo.respostas_oi)
        Exemplo.meio_dia "Tchau!" 7).2
     = escolha_padrao (sorteio Exemplo.meio_dia)
  /\ (@processar_mensagem Latin1.biblioteca
        (com_respostas Exemplo.com_saudacao Exemplo.respostas_oi)
        Exemplo.meio_dia "Tchau!" 7).2 ∈ respostas_padrao.
Proof.
  assert (A : Forall (fun e : string * info =>
            @correspondencia Latin1.biblioteca e.1
              (@normalizar Latin1.biblioteca "Tchau!") = 0)
    (conhecimento (com_respostas Exemplo.com_saudacao Exemplo.respostas_oi)))
    by (constructor; [vm_compute; reflexivity | constructor]).
  assert (B : Forall (fun e : string * list item =>
               casa e.1 (@normalizar Latin1.biblioteca "Tchau!") = false)
       (respostas (com_respostas Exemplo.com_saudacao Exemplo.respostas_oi)))
    by (constructor; [vm_compute; reflexivity | constructor]).
  split; [exact A|]. split; [exact B|]. split; [reflexivity|].
  exact (@resposta_do_repertorio_padrao Latin1.biblioteca _ Exemplo.meio_dia "Tchau!" 7
           A B eq_refl).
Defined.

(** The file of user 7 after the message, the file of user 8, which does
    not exist, and the file of user 7 after a second message in the same
    second whose write fails half-way. *)
Lemma conversa_registrada_exemplo :
  Dict.get (arquivo_de 7 (carimbo Exemplo.meio_dia)) (conversas Exemplo.depois_de_oi)
  = Some (Json {| c_user_id := 7; c_timestamp := "20240101120000";
                  c_pergunta := Some "oi";
                  c_resposta := Some "Poderia me ensinar mais sobre esse assunto?" |})
  /\ "conversa_8_20240101120000.json" <> arquivo_de 7 (carimbo Exemplo.meio_dia)
  /\ Dict.get "conversa_8_20240101120000.json" (conversas Exemplo.depois_de_oi)
     = Dict.get "conversa_8_20240101120000.json" (conversas Exemplo.__init__)
  /\ Dict.get (arquivo_de 7 (carimbo Exemplo.disco_cheio))
       (conversas (@processar_mensagem Latin1.biblioteca Exemplo.depois_de_oi
                     Exemplo.disco_cheio "tchau" 7).1)
     = Some Ilegivel.
Proof.
  assert (A : "conversa_8_20240101120000.json" <> arquivo_de 7 (carimbo Exemplo.meio_dia))
    by (vm_compute; discriminate).
  split; [|split; [exact A|split]].
  - exact (proj1 (@conversa_registrada Latin1.biblioteca Exemplo.__init__
                    Exemplo.meio_dia "oi" 7)).
  - exact (proj2 (@conversa_registrada Latin1.biblioteca Exemplo.__init__
                    Exemplo.meio_dia "oi" 7) _ A).
  - exact (proj1 (@conversa_registrada Latin1.biblioteca Exemplo.depois_de_oi
                    Exemplo.disco_cheio "tchau" 7)).
Defined.

(** User 7 asks twice at noon: one file, holding the second question. *)
Lemma conversas_no_mesmo_segundo_exemplo :
  gravou Exemplo.meio_dia = true
  /\ gravou Exemplo.wikipedia_vazia = true
  /\ carimbo Exemplo.wikipedia_vazia = carimbo Exemplo.meio_dia
  /\ length (conversas (@processar_mensagem Latin1.biblioteca Exemplo.depois_de_oi
                          Exemplo.wikipedia_vazia "tchau" 7).1) = 1
  /\ Dict.get "conversa_7_20240101120000.json"
       (conversas (@processar_mensagem Latin1.biblioteca Exemplo.depois_de_oi
                     Exemplo.wikipedia_vazia "tchau" 7).1)
     = Some (Json {| c_user_id := 7; c_timestamp := "20240101120000";
                     c_pergunta := Some "tchau";
                     c_resposta := Some "Poderia me ensinar mais sobre esse assunto?" |}).
Proof.
  do 3 (split; [reflexivity|]).
  pose proof (@conversas_no_mesmo_segundo Latin1.biblioteca Exemplo.__init__ Exemplo.meio_dia
                Exemplo.wikipedia_vazia "oi" "tchau" 7 eq_refl eq_refl eq_refl)
    as (A & _ & C).
  split; [exact A|exact C].
Defined.

(** The greeting taught to the empty base, the case of the unit test. *)
Lemma ensinar_e_consultar_exemplo :
  Dict.get "bom dia" (conhecimento Exemplo.com_saudacao)
  = Some {| resposta := "Bom dia!"; data_adicao := "2024-01-01 11:00:00" |}
  /\ "boa noite" <> "bom dia"
  /\ Dict.get "boa noite" (conhecimento Exemplo.com_saudacao)
     = Dict.get "boa noite" (conhecimento Exemplo.__init__)
  /\ length (conhecimento Exemplo.com_saudacao) = 1.
Proof.
  assert (A : "boa noite" <> "bom dia") by discriminate.
  pose proof (ensinar_e_consultar Exemplo.__init__ "bom dia" "Bom dia!"
                "2024-01-01 11:00:00") as (R & F & L & _).
  split; [exact R|]. split; [exact A|]. split; [exact (F _ A)|exact L].
Defined.

(** Teaching the evening greeting does not change the reply to the morning
    one. *)
Lemma ensinar_sem_relacao_nao_muda_exemplo :
  @correspondencia Latin1.biblioteca "boa noite" (@normalizar Latin1.biblioteca "Bom dia") = 0
  /\ (@processar_mensagem Latin1.biblioteca
        (adicionar_conhecimento Exemplo.com_saudacao "boa noite" "Boa noite!"
           "2024-01-01 11:30:00")
        Exemplo.meio_dia "Bom dia" 7).2
     = (@processar_mensagem Latin1.biblioteca Exemplo.com_saudacao
          Exemplo.meio_dia "Bom dia" 7).2.
Proof.
  assert (A : @correspondencia Latin1.biblioteca "boa noite"
                (@normalizar Latin1.biblioteca "Bom dia") = 0)
    by (vm_compute; reflexivity).
  split; [exact A|].
  exact (@ensinar_sem_relacao_nao_muda Latin1.biblioteca Exemplo.com_saudacao "boa noite"
           "Boa noite!" "2024-01-01 11:30:00" Exemplo.meio_dia "Bom dia" 7 A).
Defined.

(** A negative feedback on the default reply leaves the candidate of score 5
    alone. *)
Lemma aprender_nao_toca_outros_candidatos_exemplo :
  localizar_conversa "1200"
    (conversas (com_respostas Exemplo.depois_de_oi Exemplo.respostas_oi))
  = Some ("conversa_7_20240101120000.json",
          Json {| c_user_id := 7; c_timestamp := "20240101120000";
                  c_pergunta := Some "oi";
                  c_resposta := Some "Poderia me ensinar mais sobre esse assunto?" |})
  /\ ("oi", "oi tudo bem") <> ("oi", "Poderia me ensinar mais sobre esse assunto?")
  /\ candidato
       (respostas (@_aprender_com_feedback Latin1.biblioteca
                     (com_respostas Exemplo.depois_de_oi Exemplo.respostas_oi)
                     "1200" "negativo"))
       "oi" "oi tudo bem"
     = Some {| texto := "oi tudo bem"; pontuacao := Inteiro 5 |}.
Proof.
  assert (A : ("oi", "oi tudo bem") <> ("oi", "Poderia me ensinar mais sobre esse assunto?"))
    by discriminate.
  split; [reflexivity|]. split; [exact A|].
  exact (@aprender_nao_toca_outros_candidatos Latin1.biblioteca
           (com_respostas Exemplo.depois_de_oi Exemplo.respostas_oi)
           "1200" "negativo" _ _ "oi" "oi tudo bem" eq_refl A).
Defined.

(** Two logged conversations of user 7 and an identifier that occurs in both
    names: the question of the first one is the pattern learned. *)
Lemma aprender_usa_primeira_conversa_exemplo :
  conversas (@executar Latin1.biblioteca Exemplo.__init__
               [ Mensagem Exemplo.meio_dia "oi" 7;
                 Mensagem Exemplo.mais_tarde "tchau" 7 ])
  = [] ++ ("conversa_7_20240101120000.json",
           Json {| c_user_id := 7; c_timestamp := "20240101120000";
                   c_pergunta := Some "oi";
                   c_resposta := Some "Poderia me ensinar mais sobre esse assunto?" |})
       :: [ ("conversa_7_20240101120500.json",
             Json {| c_user_id := 7; c_timestamp := "20240101120500";
                     c_pergunta := Some "tchau";
                     c_resposta := Some "Ainda estou aprendendo sobre isso." |}) ]
  /\ Forall (fun e : string * conteudo => contido "7_2024" e.1 = false) []
  /\ contido "7_2024" "conversa_7_20240101120000.json" = true
  /\ chaves (respostas
       (@_aprender_com_feedback Latin1.biblioteca
          (@executar Latin1.biblioteca Exemplo.__init__
             [ Mensagem Exemplo.meio_dia "oi" 7;
               Mensagem Exemplo.mais_tarde "tchau" 7 ])
          "7_2024" "positivo"))
     = ["oi"].
Proof.
  split; [reflexivity|]. split; [constructor|]. split; [reflexivity|].
  rewrite (proj1 (@aprender_usa_primeira_conversa Latin1.biblioteca
                    (@executar Latin1.biblioteca Exemplo.__init__
                       [ Mensagem Exemplo.meio_dia "oi" 7;
                         Mensagem Exemplo.mais_tarde "tchau" 7 ])
                    "7_2024" "positivo" [] _ _ _ eq_refl (Forall_nil_2 _) eq_refl)).
  reflexivity.
Defined.

(** The command of the help text. *)
Lemma ensinar_comando_aprende_exemplo :
  ocorrencias "|" "bom dia " = 0
  /\ contido "/ensinar " ("bom dia " +:+ "|" +:+ " Bom dia!") = false
  /\ @Telegram.ensinar Latin1.biblioteca Exemplo.__init__
       "/ensinar bom dia | Bom dia!" "2024-01-01 11:00:00"
     = (Exemplo.com_saudacao,
        "Obrigado! Aprendi que quando me perguntarem sobre 'bom dia', devo responder: 'Bom dia!'").
Proof.
  split; [reflexivity|]. split; [reflexivity|].
  exact (@ensinar_comando_aprende Latin1.biblioteca Exemplo.__init__
           "bom dia " " Bom dia!" "2024-01-01 11:00:00" eq_refl eq_refl).
Defined.

(** From the fresh installation: the default reply, once approved, is the
    reply to the same question five minutes later, for another user and
    another draw, after another conversation and a button press. *)
Lemma aprender_e_perguntar_exemplo :
  gravou Exemplo.meio_dia = true
  /\ localizar_conversa "20240101120000" (conversas Exemplo.__init__) = None
  /\ contido "20240101120000" (arquivo_de 7 (carimbo Exemplo.meio_dia)) = true
  /\ verdadeiro (@busca_conhecimento Latin1.biblioteca
                   (conhecimento Exemplo.__init__)
                   (@normalizar Latin1.biblioteca "Oi")) = false
  /\ @busca_respostas (respostas Exemplo.__init__)
        (@normalizar Latin1.biblioteca "Oi") = None
  /\ Latin1.strip (Latin1.lower "Oi") = @normalizar Latin1.biblioteca "Oi"
  /\ forallb conversa_ou_botao
       [ Mensagem Exemplo.mais_tarde "tchau" 9;
         Feedback "feedback_negativo_1205" 9 ] = true
  /\ (@processar_mensagem Latin1.biblioteca
        (@executar Latin1.biblioteca
           (@_aprender_com_feedback Latin1.biblioteca
              (@processar_mensagem Latin1.biblioteca Exemplo.__init__
                 Exemplo.meio_dia "Oi" 7).1
              "20240101120000" "positivo")
           [ Mensagem Exemplo.mais_tarde "tchau" 9;
             Feedback "feedback_negativo_1205" 9 ])
        Exemplo.mais_tarde "Oi" 8).2
     = "Poderia me ensinar mais sobre esse assunto?".
Proof.
  do 7 (split; [reflexivity|]).
  exact (@aprender_e_perguntar Latin1.biblioteca Exemplo.__init__
           Exemplo.meio_dia "Oi" 7 "20240101120000"
           [ Mensagem Exemplo.mais_tarde "tchau" 9;
             Feedback "feedback_negativo_1205" 9 ]
           Exemplo.mais_tarde 8
           eq_refl eq_refl eq_refl eq_refl eq_refl eq_refl eq_refl).
Defined.

(** Word order, repetition and punctuation do not matter. *)
Lemma mesmas_palavras_mesma_resposta_exemplo :
  @palavras Latin1.biblioteca "bom dia" = @palavras Latin1.biblioteca "dia, bom dia"
  /\ @busca_conhecimento Latin1.biblioteca (conhecimento Exemplo.com_saudacao) "bom dia"
     = @busca_conhecimento Latin1.biblioteca (conhecimento Exemplo.com_saudacao) "dia, bom dia".
Proof.
  assert (E : @palavras Latin1.biblioteca "bom dia"
              = @palavras Latin1.biblioteca "dia, bom dia") by (vm_compute; reflexivity).
  split; [exact E|].
  exact (@mesmas_palavras_mesma_resposta Latin1.biblioteca _ _ _ E).
Defined.
